(** * A shallow embedding of [app/main.py]

    The gateway proxies news queries to the GNews API, rotating over a list
    of API keys, and forwards authentication and per-user records to
    Supabase.  Every function of [main.py] is embedded below as a function
    over an explicit program state; the calls into [requests] and [supabase]
    are the only things left abstract (they are the variables of section
    [Gateway]). *)

From Stdlib Require Import ZArith String Ascii List Lia.
From stdpp Require Import base gmap strings list.

Local Open Scope string_scope.
Local Open Scope Z_scope.

(** ** Python primitives used by [main.py] *)

Module Py.

(** Values stored in the dictionaries the handlers build: [None], [str]
    and [int]. *)
Inductive pyval : Type :=
| VNone
| VStr (s : string)
| VInt (z : Z).

Definition of_optional (o : option string) : pyval :=
  match o with
  | Some s => VStr s
  | None => VNone
  end.

(** An exception raised by library code ([requests], [supabase], or the
    interpreter itself).  [except requests.exceptions.RequestException]
    catches the ones with [is_request_exception = true]; [except Exception]
    catches all of them.  [exn_str e] is [str(e)]. *)
Record pyexn : Type := PyExn {
  is_request_exception : bool;
  exn_str : string
}.

Definition IndexError : pyexn :=
  PyExn false "list index out of range".

Definition AttributeError (what : string) : pyexn :=
  PyExn false what.

(** [l[i]] on a list, with Python's negative indices; [None] is
    [IndexError]. *)
Definition getitem {A : Type} (l : list A) (i : Z) : option A :=
  let n := Z.of_nat (List.length l) in
  if 0 <=? i then l !! Z.to_nat i
  else if 0 <=? n + i then l !! Z.to_nat (n + i)
  else None.

(** Truthiness of [str], of [Optional[str]] and of [list]. *)
Definition truthy_str (s : string) : bool :=
  match s with
  | EmptyString => false
  | String _ _ => true
  end.

Definition truthy_opt (o : option string) : bool :=
  match o with
  | Some s => truthy_str s
  | None => false
  end.

Definition truthy_list {A : Type} (l : list A) : bool :=
  match l with
  | [] => false
  | _ :: _ => true
  end.

(** [c in s] for a one-character needle [c]. *)
Fixpoint contains (c : ascii) (s : string) : bool :=
  match s with
  | EmptyString => false
  | String a s' => if Ascii.eqb a c then true else contains c s'
  end.

(** [s.split(c)] for a one-character separator: every occurrence of the
    separator cuts, empty fields are kept, and the result is never
    empty. *)
Fixpoint split (c : ascii) (s : string) : list string :=
  match s with
  | EmptyString => [EmptyString]
  | String a s' =>
      if Ascii.eqb a c then EmptyString :: split c s'
      else match split c s' with
           | field :: rest => String a field :: rest
           | [] => [String a EmptyString]
           end
  end.

(** The part of [s] after the first occurrence of [c] (empty when [c]
    does not occur), and the part before it (all of [s] when [c] does not
    occur). *)
Fixpoint after_first (c : ascii) (s : string) : string :=
  match s with
  | EmptyString => EmptyString
  | String a s' => if Ascii.eqb a c then s' else after_first c s'
  end.

Fixpoint before_first (c : ascii) (s : string) : string :=
  match s with
  | EmptyString => EmptyString
  | String a s' => if Ascii.eqb a c then EmptyString else String a (before_first c s')
  end.

(** [str.lower] restricted to the ASCII letters; used to instantiate the
    section variable [str_lower] on ASCII inputs. *)
Definition ascii_lower_char (a : ascii) : ascii :=
  let n := nat_of_ascii a in
  if (Nat.leb 65 n && Nat.leb n 90)%bool then ascii_of_nat (n + 32) else a.

Fixpoint ascii_lower (s : string) : string :=
  match s with
  | EmptyString => EmptyString
  | String a s' => String (ascii_lower_char a) (ascii_lower s')
  end.

End Py.

Import Py.

(** A Python [dict] with string keys. *)
Notation dict := (gmap string pyval).

(** ** Pydantic models *)

Record UserAuth : Type := {
  email : string;
  password : string;
  name : option string
}.

Record NewsArticle : Type := {
  title : string;
  description : string;
  content : option string;
  url : string;
  image : option string;
  publishedAt : option string
}.

(** [article.dict()]: one entry per declared field, [None] for an optional
    field that is not set. *)
Definition NewsArticle_dict (article : NewsArticle) : dict :=
  <["title" := VStr (title article)]>
  (<["description" := VStr (description article)]>
  (<["content" := of_optional (content article)]>
  (<["url" := VStr (url article)]>
  (<["image" := of_optional (image article)]>
  (<["publishedAt" := of_optional (publishedAt article)]> ∅))))).

(** The argument of [supabase.auth.sign_up]: [email], [password] and, when
    present, [options = {"data": {"name": ...}}]. *)
Record SignUpData : Type := {
  su_email : string;
  su_password : string;
  su_options_data_name : option string
}.

(** ** Configuration *)

(** [[os.getenv(f"GNEWS_API_KEY_{i}") for i in range(1, 6)
      if os.getenv(f"GNEWS_API_KEY_{i}")]] *)
Definition GNEWS_API_KEY_names : list string :=
  ["GNEWS_API_KEY_1"; "GNEWS_API_KEY_2"; "GNEWS_API_KEY_3";
   "GNEWS_API_KEY_4"; "GNEWS_API_KEY_5"].

Definition load_GNEWS_API_KEYS (getenv : string -> option string) : list string :=
  omap (fun v => match getenv v with
                 | Some k => if truthy_str k then Some k else None
                 | None => None
                 end) GNEWS_API_KEY_names.

(** ** Library responses *)

(** [J] stands for the JSON values the services hand back, which the gateway
    passes on without looking inside. *)

(** What [requests.get] returns: [raise_for_status] raises an [HTTPError]
    (a [RequestException]) with the given text when the status is an
    error status; [json] parses the body or raises. *)
Record Response (J : Type) : Type := {
  raise_for_status : option string;
  json : pyexn + J
}.

(** What [sign_up] and [sign_in_with_password] return. *)
Record AuthResponse (J : Type) : Type := {
  user : J;
  session : J
}.

Arguments raise_for_status {J} _.
Arguments json {J} _.
Arguments user {J} _.
Arguments session {J} _.

(** ** Outbound calls and outcomes *)

(** One entry per call that leaves the process. *)
Inductive call : Type :=
| Call_requests_get (url : string) (params : dict)
| Call_sign_up (data : SignUpData)
| Call_sign_in_with_password (email password : string)
| Call_get_user (token : string)
| Call_select_eq (table column value : string)
| Call_select_all (table : string)
| Call_insert (table : string) (record : dict).

(** How a function ends: it returns, raises [HTTPException], or lets a
    library exception escape. *)
Inductive outcome (A : Type) : Type :=
| Return (a : A)
| HTTPException (status_code : Z) (detail : string)
| Uncaught (e : pyexn).

Arguments Return {A} a.
Arguments HTTPException {A} status_code detail.
Arguments Uncaught {A} e.

(** ** A small outside world

    Concrete library behaviours, used to run the handlers: the world has no
    state of its own and JSON values are kept as text. *)

Module Sample.

Definition keys : list string := ["k1"; "k2"; "k3"].

Definition requests_get_ok :
    string -> dict -> unit -> (pyexn + Response string) * unit :=
  fun _ _ w => (inr {| raise_for_status := None; json := inr "{}" |}, w).

Definition requests_get_timeout :
    string -> dict -> unit -> (pyexn + Response string) * unit :=
  fun _ _ w => (inl (PyExn true "Read timed out."), w).

Definition requests_get_forbidden :
    string -> dict -> unit -> (pyexn + Response string) * unit :=
  fun _ _ w =>
    (inr {| raise_for_status := Some "403 Client Error: Forbidden";
            json := inr "{}" |}, w).

Definition sign_up_taken :
    SignUpData -> unit -> (pyexn + AuthResponse string) * unit :=
  fun _ w => (inl (PyExn false "User already registered"), w).

Definition sign_in_rejected :
    string -> string -> unit -> (pyexn + AuthResponse string) * unit :=
  fun _ _ w => (inl (PyExn false "Email not confirmed"), w).

Definition get_user_ok : string -> unit -> (pyexn + option string) * unit :=
  fun _ w => (inr (Some "user-1"), w).

Definition select_none :
    string -> string -> string -> unit -> (pyexn + list string) * unit :=
  fun _ _ _ w => (inr [], w).

Definition insert_ok : string -> dict -> unit -> (pyexn + string) * unit :=
  fun _ _ w => (inr "[]", w).

Definition insert_refused : string -> dict -> unit -> (pyexn + string) * unit :=
  fun _ _ w => (inl (PyExn false "permission denied for table"), w).

Definition credentials : UserAuth :=
  {| email := "ada@example.org"; password := "secret"; name := Some "Ada" |}.

Definition article : NewsArticle :=
  {| title := "Title"; description := "Text"; content := None;
     url := "https://example.org/a"; image := None; publishedAt := None |}.

End Sample.

Section Gateway.

(** *** The outside world *)

(** [W] is the state of everything outside the process (GNews, Supabase),
    [J] the type of the JSON values it hands back. *)
Variables (W J : Type).

(** [requests.get(url, params=...)] *)
Variable requests_get : string -> dict -> W -> (pyexn + Response J) * W.

(** [supabase.auth.sign_up(data)] and
    [supabase.auth.sign_in_with_password({"email": ..., "password": ...})] *)
Variable auth_sign_up : SignUpData -> W -> (pyexn + AuthResponse J) * W.
Variable auth_sign_in_with_password :
  string -> string -> W -> (pyexn + AuthResponse J) * W.

(** [supabase.auth.get_user(token)]: a user response, given here by its
    [.user.id], or [None]. *)
Variable auth_get_user : string -> W -> (pyexn + option string) * W.

(** [supabase.table(t).select("*").eq(column, value).execute().data],
    [supabase.table(t).select("*").execute().data] and
    [supabase.table(t).insert(record).execute()] *)
Variable table_select_eq :
  string -> string -> string -> W -> (pyexn + list J) * W.
Variable table_select_all : string -> W -> (pyexn + list J) * W.
Variable table_insert : string -> dict -> W -> (pyexn + J) * W.

(** [str.lower], a builtin. *)
Variable str_lower : string -> string.

(** The module-level list, fixed once the module is loaded. *)
Variable GNEWS_API_KEYS : list string.

(** *** Program state *)

(** [current_api_key_index] is the module global; [heap] holds the
    dictionaries that are passed by reference (a reference is an index
    into it); [world] is the outside; [calls] records the outbound calls,
    oldest first. *)
Record state : Type := State {
  current_api_key_index : Z;
  heap : list dict;
  world : W;
  calls : list call
}.

Definition initial_state (w : W) : state :=
  State 0 [] w [].

Definition set_current_api_key_index (i : Z) (st : state) : state :=
  State i (heap st) (world st) (calls st).

Definition set_heap (h : list dict) (st : state) : state :=
  State (current_api_key_index st) h (world st) (calls st).

(** Function bodies: state in, outcome and state out.  An exception does
    not undo what the function did before raising. *)
Definition M (A : Type) : Type := state -> outcome A * state.

Definition ret {A : Type} (a : A) : M A :=
  fun st => (Return a, st).

Definition raise {A : Type} (status_code : Z) (detail : string) : M A :=
  fun st => (HTTPException status_code detail, st).

Definition throw {A : Type} (e : pyexn) : M A :=
  fun st => (Uncaught e, st).

Definition bind {A B : Type} (c : M A) (k : A -> M B) : M B :=
  fun st =>
    match c st with
    | (Return a, st') => k a st'
    | (HTTPException s d, st') => (HTTPException s d, st')
    | (Uncaught e, st') => (Uncaught e, st')
    end.

(** Bodies of [try] blocks: they only call libraries, so they end with a
    value or with a library exception. *)
Definition L (A : Type) : Type := state -> (pyexn + A) * state.

Definition lret {A : Type} (a : A) : L A :=
  fun st => (inr a, st).

Definition lbind {A B : Type} (c : L A) (k : A -> L B) : L B :=
  fun st =>
    match c st with
    | (inr a, st') => k a st'
    | (inl e, st') => (inl e, st')
    end.

(** A library call: it is recorded, and it moves the world. *)
Definition outbound {A : Type} (c : call) (f : W -> (pyexn + A) * W) : L A :=
  fun st =>
    let (r, w') := f (world st) in
    (r, State (current_api_key_index st) (heap st) w' (calls st ++ [c])).

(** A pure step that may raise, inside a [try] block. *)
Definition lift_result {A : Type} (r : pyexn + A) : L A :=
  fun st => (r, st).

(** [try: body / except <class> as e: handler e], where [catches] tells
    which exceptions the [except] clause matches. *)
Definition try_except {A : Type}
    (body : L A) (catches : pyexn -> bool) (handler : pyexn -> M A) : M A :=
  fun st =>
    match body st with
    | (inr a, st') => (Return a, st')
    | (inl e, st') => if catches e then handler e st' else (Uncaught e, st')
    end.

Definition except_Exception (e : pyexn) : bool := true.
Definition except_RequestException (e : pyexn) : bool := is_request_exception e.

(** A dictionary literal bound to a name: allocated, then handled through
    its reference. *)
Definition new_dict (d : dict) : M nat :=
  fun st => (Return (List.length (heap st)), set_heap (heap st ++ [d]) st).

(** References come from [new_dict] only, so they always point into the
    heap; at an index outside it [deref] reads an empty dictionary and an
    assignment is lost. *)
Definition deref (h : list dict) (r : nat) : dict :=
  default ∅ (h !! r).

(** [r[k] = v] *)
Definition dict_setitem (r : nat) (k : string) (v : pyval) : M unit :=
  fun st => (Return tt, set_heap (<[r := <[k := v]> (deref (heap st) r)]> (heap st)) st).

Declare Scope py_scope.
Delimit Scope py_scope with py.

Notation "x <~ c ;; k" := (bind c (fun x => k))
  (at level 100, c at next level, right associativity) : py_scope.
Notation "x <- c ;;; k" := (lbind c (fun x => k))
  (at level 100, c at next level, right associativity) : py_scope.

Local Open Scope py_scope.

(** *** GNews API key management *)

(** [get_gnews_api_key()] *)
Definition get_gnews_api_key : M string :=
  fun st =>
    if negb (truthy_list GNEWS_API_KEYS) then
      raise 500 "GNews API keys not configured." st
    else
      match getitem GNEWS_API_KEYS (current_api_key_index st) with
      | None => throw IndexError st
      | Some key =>
          ret key
            (set_current_api_key_index
               ((current_api_key_index st + 1) `mod` Z.of_nat (List.length GNEWS_API_KEYS))
               st)
      end.

(** *** The fetch helper *)

Definition base_url : string := "https://gnews.io/api/v4".

(** [requests.get(url, params=params)]: the dictionary behind [params] is
    read at the time of the call. *)
Definition do_requests_get (url : string) (params : nat) : L (Response J) :=
  fun st =>
    let d := deref (heap st) params in
    outbound (Call_requests_get url d) (requests_get url d) st.

(** [response.raise_for_status()] *)
Definition do_raise_for_status (response : Response J) : L unit :=
  lift_result
    match raise_for_status response with
    | Some text => inl (PyExn true text)
    | None => inr tt
    end.

(** [fetch_gnews(endpoint, params)] *)
Definition fetch_gnews (endpoint : string) (params : nat) : M J :=
  api_key <~ get_gnews_api_key ;;
  _ <~ dict_setitem params "apikey" (VStr api_key) ;;
  try_except
    (response <- do_requests_get (base_url ++ "/" ++ endpoint) params ;;;
     _ <- do_raise_for_status response ;;;
     lift_result (json response))
    except_RequestException
    (fun e => raise 400 ("Error fetching from GNews: " ++ exn_str e)).

(** *** News endpoints *)

(** [get_top_headlines(page, lang)] *)
Definition get_top_headlines (page : Z) (lang : string) : M J :=
  params <~ new_dict
    (<["lang" := VStr lang]> (<["max" := VInt 9]> (<["page" := VInt page]> ∅))) ;;
  fetch_gnews "top-headlines" params.

(** [get_news_by_category(category_name, page, lang)] *)
Definition get_news_by_category (category_name : string) (page : Z) (lang : string) : M J :=
  params <~ new_dict
    (<["topic" := VStr (str_lower category_name)]>
     (<["lang" := VStr lang]> (<["max" := VInt 9]> (<["page" := VInt page]> ∅)))) ;;
  fetch_gnews "top-headlines" params.

(** [search_news(q, page, lang)] *)
Definition search_news (q : string) (page : Z) (lang : string) : M J :=
  if negb (truthy_str q) then
    raise 400 "Search query parameter 'q' is required."
  else
    params <~ new_dict
      (<["q" := VStr q]>
       (<["lang" := VStr lang]>
        (<["max" := VInt 9]>
         (<["page" := VInt page]> (<["sortby" := VStr "publishedAt"]> ∅))))) ;;
    fetch_gnews "search" params.

(** A call of [search_news] that may leave arguments out.  The signature is
    [def search_news(q: str, page: int = 1, lang: str = 'en')]: [page] and
    [lang] have defaults, [q] has none, so a call without [q] raises
    [TypeError] before the body runs.  (The route, which the framework
    derives from the same signature, refuses a request without [q] on its
    own account; the body is not run then either.) *)
Definition call_search_news
    (q : option string) (page : option Z) (lang : option string) : M J :=
  match q with
  | None =>
      throw (PyExn false "search_news() missing 1 required positional argument: 'q'")
  | Some q => search_news q (default 1 page) (default "en" lang)
  end.

(** *** Authentication endpoints *)

(** What the handlers outside the news endpoints return. *)
Inductive reply : Type :=
| Reply_user_session (u s : J)       (* {"user": ..., "session": ...} *)
| Reply_rows (rows : list J)         (* data.data *)
| Reply_message (message : string)   (* {"message": ...} *)
| Reply_saved_articles (rows : list J)
| Reply_error (error : string).

(** [signup(user_credentials)] *)
Definition signup (user_credentials : UserAuth) : M reply :=
  try_except
    (let signup_data :=
       {| su_email := email user_credentials;
          su_password := password user_credentials;
          su_options_data_name :=
            if truthy_opt (name user_credentials) then name user_credentials
            else None |} in
     r <- outbound (Call_sign_up signup_data) (auth_sign_up signup_data) ;;;
     lret (Reply_user_session (user r) (session r)))
    except_Exception
    (fun e => raise 400 (exn_str e)).

(** [login(user_credentials)] *)
Definition login (user_credentials : UserAuth) : M reply :=
  try_except
    (r <- outbound
            (Call_sign_in_with_password (email user_credentials) (password user_credentials))
            (auth_sign_in_with_password (email user_credentials) (password user_credentials)) ;;;
     lret (Reply_user_session (user r) (session r)))
    except_Exception
    (fun e => raise 401 "Invalid login credentials.").

(** *** Per-user records *)

(** [user = supabase.auth.get_user(token); user_id = user.user.id] *)
Definition resolve_user_id (token : string) : L string :=
  u <- outbound (Call_get_user token) (auth_get_user token) ;;;
  lift_result
    match u with
    | Some user_id => inr user_id
    | None => inl (AttributeError "'NoneType' object has no attribute 'user'")
    end.

(** [authorization.split(" ")[1] if " " in authorization else authorization] *)
Definition bearer_token (authorization : string) : M string :=
  if contains " " authorization then
    match getitem (split " " authorization) 1 with
    | Some token => ret token
    | None => throw IndexError
    end
  else ret authorization.

(** [get_saved_news(authorization)] *)
Definition get_saved_news (authorization : option string) : M reply :=
  match authorization with
  | Some header =>
      if negb (truthy_str header) then raise 401 "Unauthorized"
      else
        token <~ (if contains " " header then
                    match getitem (split " " header) 1 with
                    | Some token => ret token
                    | None => throw IndexError
                    end
                  else ret header) ;;
        try_except
          (user_id <- resolve_user_id token ;;;
           data <- outbound (Call_select_eq "savednews" "user_id" user_id)
                     (table_select_eq "savednews" "user_id" user_id) ;;;
           lret (Reply_rows data))
          except_Exception
          (fun e => raise 401 "Invalid token")
  | None => raise 401 "Unauthorized"
  end.

(** [get_user_history(authorization)] *)
Definition get_user_history (authorization : option string) : M reply :=
  match authorization with
  | Some header =>
      if negb (truthy_str header) then raise 401 "Unauthorized"
      else
        token <~ (if contains " " header then
                    match getitem (split " " header) 1 with
                    | Some token => ret token
                    | None => throw IndexError
                    end
                  else ret header) ;;
        try_except
          (user_id <- resolve_user_id token ;;;
           data <- outbound (Call_select_eq "history" "user_id" user_id)
                     (table_select_eq "history" "user_id" user_id) ;;;
           lret (Reply_rows data))
          except_Exception
          (fun e => raise 401 "Invalid token")
  | None => raise 401 "Unauthorized"
  end.

(** [save_article(article, authorization)] *)
Definition save_article (article : NewsArticle) (authorization : option string) : M reply :=
  match authorization with
  | Some header =>
      if negb (truthy_str header) then raise 401 "Unauthorized"
      else
        token <~ (if contains " " header then
                    match getitem (split " " header) 1 with
                    | Some token => ret token
                    | None => throw IndexError
                    end
                  else ret header) ;;
        user_id <~ try_except
                     (resolve_user_id token)
                     except_Exception
                     (fun e => raise 401 "Invalid token") ;;
        try_except
          (let record := <["user_id" := VStr user_id]> (NewsArticle_dict article) in
           _ <- outbound (Call_insert "savednews" record)
                  (table_insert "savednews" record) ;;;
           lret (Reply_message "Article saved"))
          except_Exception
          (fun e => raise 500 ("Failed to save article: " ++ exn_str e))
  | None => raise 401 "Unauthorized"
  end.

(** [add_to_history(article, authorization)] *)
Definition add_to_history (article : NewsArticle) (authorization : option string) : M reply :=
  match authorization with
  | Some header =>
      if negb (truthy_str header) then raise 401 "Unauthorized"
      else
        token <~ (if contains " " header then
                    match getitem (split " " header) 1 with
                    | Some token => ret token
                    | None => throw IndexError
                    end
                  else ret header) ;;
        try_except
          (user_id <- resolve_user_id token ;;;
           let record := <["user_id" := VStr user_id]> (NewsArticle_dict article) in
           _ <- outbound (Call_insert "history" record)
                  (table_insert "history" record) ;;;
           lret (Reply_message "Article added to history"))
          except_Exception
          (fun e => raise 401 "Invalid token")
  | None => raise 401 "Unauthorized"
  end.

(** [test_saved_articles()]: the failure is returned, not raised. *)
Definition test_saved_articles : M reply :=
  try_except
    (data <- outbound (Call_select_all "savednews") (table_select_all "savednews") ;;;
     lret (Reply_saved_articles data))
    except_Exception
    (fun e => ret (Reply_error (exn_str e))).

(** The dictionaries [get_news_by_category] and [search_news] build, before
    the key is added. *)
Definition category_params (category_name : string) (page : Z) (lang : string) : dict :=
  <["topic" := VStr (str_lower category_name)]>
  (<["lang" := VStr lang]> (<["max" := VInt 9]> (<["page" := VInt page]> ∅))).

Definition search_params (q : string) (page : Z) (lang : string) : dict :=
  <["q" := VStr q]>
  (<["lang" := VStr lang]>
   (<["max" := VInt 9]>
    (<["page" := VInt page]> (<["sortby" := VStr "publishedAt"]> ∅)))).

(** Calling the rotator [n] times in a row: the cursor each call read, paired
    with how the call ended. *)
Fixpoint rotate (n : nat) (st : state) : list (Z * outcome string) * state :=
  match n with
  | O => ([], st)
  | S n' =>
      let (r, st') := get_gnews_api_key st in
      let (rs, st'') := rotate n' st' in
      ((current_api_key_index st, r) :: rs, st'')
  end.

(** What one call of a run may look like: the cursor it read is in range
    and it returned the key stored there. *)
Definition served (entry : Z * outcome string) : Prop :=
  0 ≤ entry.1 < Z.of_nat (List.length GNEWS_API_KEYS)
  ∧ ∃ key : string,
      entry.2 = Return key ∧ GNEWS_API_KEYS !! Z.to_nat entry.1 = Some key.

(** ** Properties of the key rotator *)

(** The configured list holds at most five keys, none of them empty. *)
Lemma load_GNEWS_API_KEYS_shape (getenv : string -> option string) :
  (List.length (load_GNEWS_API_KEYS getenv) ≤ 5)%nat
  ∧ Forall (fun k => truthy_str k = true) (load_GNEWS_API_KEYS getenv).
Proof.
  unfold load_GNEWS_API_KEYS.
  change 5%nat with (List.length GNEWS_API_KEY_names).
  induction GNEWS_API_KEY_names as [|v names [IHlen IHall]]; [by split|].
  cbn [omap list_omap List.length].
  destruct (getenv v) as [k|]; [destruct (truthy_str k) eqn:Hk|]; cbn.
  - split; [lia | by constructor].
  - split; [lia | done].
  - split; [lia | done].
Qed.

Lemma set_current_api_key_index_twice (i j : Z) (st : state) :
  set_current_api_key_index i (set_current_api_key_index j st)
  = set_current_api_key_index i st.
Proof. reflexivity. Qed.

Lemma set_current_api_key_index_same (st : state) :
  set_current_api_key_index (current_api_key_index st) st = st.
Proof. by destruct st. Qed.

Lemma getitem_nat {A : Type} (l : list A) (c : nat) :
  getitem l (Z.of_nat c) = l !! c.
Proof.
  unfold getitem.
  destruct (Z.leb_spec 0 (Z.of_nat c)) as [_|Hneg]; [|lia].
  by rewrite Nat2Z.id.
Qed.

(** One call at an in-range cursor [c]: the key at [c] comes back and the
    cursor becomes [(c + 1) mod N]. *)
Lemma get_gnews_api_key_at (st : state) (c : nat) (key : string) :
  current_api_key_index st = Z.of_nat c →
  GNEWS_API_KEYS !! c = Some key →
  get_gnews_api_key st
  = (Return key,
     set_current_api_key_index
       ((Z.of_nat c + 1) `mod` Z.of_nat (List.length GNEWS_API_KEYS)) st).
Proof.
  intros Hc Hkey. unfold get_gnews_api_key.
  destruct GNEWS_API_KEYS as [|k0 ks] eqn:Hkeys; [done|].
  cbn [truthy_list negb]. rewrite Hc, getitem_nat, Hkey. reflexivity.
Qed.

(** [n] calls in a row that do not run past the end of the list read the
    cursors [c, c+1, ...] and return the keys stored there. *)
Lemma rotate_segment (n c : nat) (st : state) :
  current_api_key_index st = Z.of_nat c →
  (c < List.length GNEWS_API_KEYS)%nat →
  (c + n ≤ List.length GNEWS_API_KEYS)%nat →
  rotate n st
  = (zip (seqZ (Z.of_nat c) (Z.of_nat n)) (Return <$> take n (drop c GNEWS_API_KEYS)),
     set_current_api_key_index
       ((Z.of_nat c + Z.of_nat n) `mod` Z.of_nat (List.length GNEWS_API_KEYS)) st).
Proof.
  revert c st. induction n as [|n IH]; intros c st Hc Hin Hlen.
  - cbn [rotate]. rewrite Z.add_0_r, Z.mod_small by lia.
    by rewrite <- Hc, set_current_api_key_index_same.
  - destruct (lookup_lt_is_Some_2 GNEWS_API_KEYS c Hin) as [key Hkey].
    cbn [rotate]. rewrite (get_gnews_api_key_at st c key Hc Hkey).
    rewrite (drop_S _ _ _ Hkey), seqZ_cons by lia.
    cbn [take fmap list_fmap zip zip_with]. rewrite Hc.
    destruct n as [|n].
    + cbn [rotate]. rewrite take_0. cbn.
      replace (Z.pred (Z.of_nat 1)) with 0 by lia. by rewrite seqZ_nil.
    + rewrite (IH (S c)).
      * rewrite set_current_api_key_index_twice.
        replace (Z.succ (Z.of_nat c)) with (Z.of_nat (S c)) by lia.
        replace (Z.pred (Z.of_nat (S (S n)))) with (Z.of_nat (S n)) by lia.
        replace (Z.of_nat c + Z.of_nat (S (S n)))
          with (Z.of_nat (S c) + Z.of_nat (S n)) by lia.
        reflexivity.
      * cbn [set_current_api_key_index current_api_key_index].
        rewrite Z.mod_small; lia.
      * lia.
      * lia.
Qed.

Lemma rotate_app (n m : nat) (st : state) :
  rotate (n + m) st
  = (let (a, st') := rotate n st in
     let (b, st'') := rotate m st' in
     ((a ++ b)%list, st'')).
Proof.
  revert st. induction n as [|n IH]; intros st; cbn [rotate Nat.add].
  - by destruct (rotate m st).
  - destruct (get_gnews_api_key st) as [r st1]. rewrite IH.
    destruct (rotate n st1) as [a st2]. by destruct (rotate m st2).
Qed.

(** A full turn from cursor 0 returns the whole list and comes back to 0. *)
Lemma rotate_full (st : state) :
  GNEWS_API_KEYS ≠ [] →
  current_api_key_index st = 0 →
  rotate (List.length GNEWS_API_KEYS) st
  = (zip (seqZ 0 (Z.of_nat (List.length GNEWS_API_KEYS))) (Return <$> GNEWS_API_KEYS), st).
Proof.
  intros Hne Hc.
  assert (0 < List.length GNEWS_API_KEYS)%nat as Hpos
    by (destruct GNEWS_API_KEYS; [done | cbn; lia]).
  rewrite (rotate_segment _ 0 st Hc Hpos) by lia.
  rewrite drop_0, firstn_all, Z.add_0_l, Z_mod_same_full.
  destruct st as [i h w cs]. cbn in Hc. by subst i.
Qed.

(** A call at an in-range cursor, stated on the cursor as an integer. *)
Lemma get_gnews_api_key_in_range (st : state) :
  0 ≤ current_api_key_index st < Z.of_nat (List.length GNEWS_API_KEYS) →
  ∃ key : string,
    GNEWS_API_KEYS !! Z.to_nat (current_api_key_index st) = Some key
    ∧ get_gnews_api_key st
      = (Return key,
         set_current_api_key_index
           ((current_api_key_index st + 1)
              `mod` Z.of_nat (List.length GNEWS_API_KEYS)) st)
    ∧ 0 ≤ (current_api_key_index st + 1) `mod` Z.of_nat (List.length GNEWS_API_KEYS)
      < Z.of_nat (List.length GNEWS_API_KEYS).
Proof.
  intros Hin.
  assert (Z.to_nat (current_api_key_index st) < List.length GNEWS_API_KEYS)%nat
    as Hlt by lia.
  destruct (lookup_lt_is_Some_2 _ _ Hlt) as [key Hkey].
  exists key. split; [done|]. split.
  - rewrite (get_gnews_api_key_at st (Z.to_nat (current_api_key_index st)) key)
      by (done || lia).
    by rewrite Z2Nat.id by lia.
  - apply Z.mod_pos_bound. lia.
Qed.

(** However many calls are made, the cursor stays in range and every call
    returns a configured key. *)
Lemma rotate_in_range (n : nat) (st : state) :
  0 ≤ current_api_key_index st < Z.of_nat (List.length GNEWS_API_KEYS) →
  Forall served (rotate n st).1
  ∧ 0 ≤ current_api_key_index (rotate n st).2 < Z.of_nat (List.length GNEWS_API_KEYS).
Proof.
  revert st. induction n as [|n IH]; intros st Hin; [by split|].
  destruct (get_gnews_api_key_in_range st Hin) as [key (Hkey & Hcall & Hnext)].
  cbn [rotate]. rewrite Hcall.
  specialize (IH (set_current_api_key_index
                    ((current_api_key_index st + 1)
                       `mod` Z.of_nat (List.length GNEWS_API_KEYS)) st) Hnext).
  destruct (rotate n _) as [rs st'']. destruct IH as [IHall IHcur].
  split; [|done]. constructor; [|done].
  split; [done|]. by exists key.
Qed.

(** C1. With a non-empty key list of [N] keys: a call at a cursor in
    [[0, N)] returns the key stored at the cursor and moves the cursor to
    [(cursor + 1) mod N], which is again in [[0, N)]; so from a cursor in
    range any number of calls keeps it in range, each call returning a
    configured key; and [2 N] calls from cursor 0 read the cursors
    [0 .. N-1, 0 .. N-1] in this order, return the key list twice over in
    list order, and leave the cursor at 0. *)
Theorem rotator_round_robin :
  GNEWS_API_KEYS ≠ [] →
  let N := Z.of_nat (List.length GNEWS_API_KEYS) in
  (∀ st : state,
     0 ≤ current_api_key_index st < N →
     ∃ key : string,
       GNEWS_API_KEYS !! Z.to_nat (current_api_key_index st) = Some key
       ∧ get_gnews_api_key st
         = (Return key,
            set_current_api_key_index ((current_api_key_index st + 1) `mod` N) st)
       ∧ 0 ≤ (current_api_key_index st + 1) `mod` N < N)
  ∧ (∀ (n : nat) (st : state),
       0 ≤ current_api_key_index st < N →
       Forall served (rotate n st).1
       ∧ 0 ≤ current_api_key_index (rotate n st).2 < N)
  ∧ (∀ st : state,
       current_api_key_index st = 0 →
       rotate (2 * List.length GNEWS_API_KEYS) st
       = (zip (seqZ 0 N ++ seqZ 0 N)%list
            (Return <$> (GNEWS_API_KEYS ++ GNEWS_API_KEYS)%list), st)).
Proof.
  intros Hne N. split; [exact get_gnews_api_key_in_range|].
  split; [exact rotate_in_range|].
  intros st Hc.
  replace (2 * List.length GNEWS_API_KEYS)%nat
    with (List.length GNEWS_API_KEYS + List.length GNEWS_API_KEYS)%nat by lia.
  rewrite rotate_app, !rotate_full by done.
  f_equal. rewrite fmap_app.
  symmetry. apply zip_with_app. by rewrite length_seqZ, length_fmap, Nat2Z.id.
Qed.

(** C2. With an empty key list every call raises
    [HTTPException(500, "GNews API keys not configured.")]; no key is
    returned and the state, the cursor included, is the one before the
    call. *)
Theorem rotator_empty_list_fails (st : state) :
  GNEWS_API_KEYS = [] →
  get_gnews_api_key st = (HTTPException 500 "GNews API keys not configured.", st)
  ∧ (∀ key st', get_gnews_api_key st ≠ (Return key, st'))
  ∧ current_api_key_index (get_gnews_api_key st).2 = current_api_key_index st.
Proof.
  intros Hempty. unfold get_gnews_api_key. rewrite Hempty. cbn.
  by split; [|split].
Qed.

(** ** Bearer-token extraction *)

Lemma split_before_first (c : ascii) (s : string) :
  split c s
  = before_first c s :: (if contains c s then split c (after_first c s) else []).
Proof.
  induction s as [|a s IH]; [done|].
  cbn [split before_first contains after_first].
  destruct (Ascii.eqb a c); [done|]. by rewrite IH.
Qed.

Lemma split_second_field (c : ascii) (s : string) :
  contains c s = true →
  getitem (split c s) 1 = Some (before_first c (after_first c s)).
Proof.
  intros Hin. rewrite split_before_first, Hin.
  by rewrite (split_before_first c (after_first c s)).
Qed.

Lemma before_first_absent (c : ascii) (s : string) :
  contains c s = false → before_first c s = s.
Proof.
  induction s as [|a s IH]; [done|]. cbn.
  destruct (Ascii.eqb a c); [done|]. intros H. by rewrite IH.
Qed.

(** The expression is total: the index never falls outside the list, since
    a header with a space splits into two fields at least. *)
Lemma bearer_token_value (header : string) (st : state) :
  bearer_token header st
  = (Return (if contains " " header
             then before_first " " (after_first " " header)
             else header), st).
Proof.
  unfold bearer_token. destruct (contains " " header) eqn:Hin; [|done].
  by rewrite (split_second_field _ _ Hin).
Qed.

(** With a non-empty header each of the four handlers starts by resolving
    the token the expression yields. *)
Lemma get_saved_news_token (header : string) (st : state) :
  truthy_str header = true →
  get_saved_news (Some header) st
  = (token <~ bearer_token header ;;
     try_except
       (user_id <- resolve_user_id token ;;;
        data <- outbound (Call_select_eq "savednews" "user_id" user_id)
                  (table_select_eq "savednews" "user_id" user_id) ;;;
        lret (Reply_rows data))
       except_Exception
       (fun e => raise 401 "Invalid token")) st.
Proof. intros Hne. unfold get_saved_news. by rewrite Hne. Qed.

Lemma get_user_history_token (header : string) (st : state) :
  truthy_str header = true →
  get_user_history (Some header) st
  = (token <~ bearer_token header ;;
     try_except
       (user_id <- resolve_user_id token ;;;
        data <- outbound (Call_select_eq "history" "user_id" user_id)
                  (table_select_eq "history" "user_id" user_id) ;;;
        lret (Reply_rows data))
       except_Exception
       (fun e => raise 401 "Invalid token")) st.
Proof. intros Hne. unfold get_user_history. by rewrite Hne. Qed.

Lemma save_article_token (article : NewsArticle) (header : string) (st : state) :
  truthy_str header = true →
  save_article article (Some header) st
  = (token <~ bearer_token header ;;
     user_id <~ try_except (resolve_user_id token) except_Exception
                  (fun e => raise 401 "Invalid token") ;;
     try_except
       (let record := <["user_id" := VStr user_id]> (NewsArticle_dict article) in
        _ <- outbound (Call_insert "savednews" record)
               (table_insert "savednews" record) ;;;
        lret (Reply_message "Article saved"))
       except_Exception
       (fun e => raise 500 ("Failed to save article: " ++ exn_str e))) st.
Proof. intros Hne. unfold save_article. by rewrite Hne. Qed.

Lemma add_to_history_token (article : NewsArticle) (header : string) (st : state) :
  truthy_str header = true →
  add_to_history article (Some header) st
  = (token <~ bearer_token header ;;
     try_except
       (user_id <- resolve_user_id token ;;;
        let record := <["user_id" := VStr user_id]> (NewsArticle_dict article) in
        _ <- outbound (Call_insert "history" record)
               (table_insert "history" record) ;;;
        lret (Reply_message "Article added to history"))
       except_Exception
       (fun e => raise 401 "Invalid token")) st.
Proof. intros Hne. unfold add_to_history. by rewrite Hne. Qed.

(** The first thing a [try] block starting with [resolve_user_id token]
    does is the [get_user token] call. *)
Lemma resolve_user_id_calls (token : string) (st : state) :
  calls (resolve_user_id token st).2 = (calls st ++ [Call_get_user token])%list.
Proof.
  unfold resolve_user_id, lbind, outbound, lift_result.
  destruct (auth_get_user token (world st)) as [[e|[uid|]] w']; reflexivity.
Qed.

Ltac run_handler :=
  unfold bind, try_except, lbind, outbound, lift_result, lret, raise, ret,
    except_Exception; cbv zeta; cbn [fst snd calls world heap current_api_key_index].

Ltac first_new_call :=
  cbn [fst snd calls]; rewrite <- ?app_assoc; cbn [app];
  apply list_lookup_middle; reflexivity.

Lemma handlers_resolve_bearer_token
    (article : NewsArticle) (header token : string) (st : state) :
  truthy_str header = true →
  bearer_token header st = (Return token, st) →
  calls (get_saved_news (Some header) st).2 !! List.length (calls st)
    = Some (Call_get_user token)
  ∧ calls (get_user_history (Some header) st).2 !! List.length (calls st)
    = Some (Call_get_user token)
  ∧ calls (save_article article (Some header) st).2 !! List.length (calls st)
    = Some (Call_get_user token)
  ∧ calls (add_to_history article (Some header) st).2 !! List.length (calls st)
    = Some (Call_get_user token).
Proof.
  intros Hne Htok.
  rewrite get_saved_news_token, get_user_history_token,
    save_article_token, add_to_history_token by done.
  unfold bind. rewrite Htok. unfold resolve_user_id.
  repeat split; run_handler;
    destruct (auth_get_user token (world st)) as [[e|[uid|]] w'];
    try first_new_call; cbn [world].
  - destruct (table_select_eq "savednews" "user_id" uid w') as [[e|rows] w''];
      first_new_call.
  - destruct (table_select_eq "history" "user_id" uid w') as [[e|rows] w''];
      first_new_call.
  - match goal with
    | |- context [table_insert ?t ?r w'] =>
        destruct (table_insert t r w') as [[e|rows] w'']
    end; first_new_call.
  - match goal with
    | |- context [table_insert ?t ?r w'] =>
        destruct (table_insert t r w') as [[e|rows] w'']
    end; first_new_call.
Qed.

(** C3, amended.  The token taken from an [Authorization] header that
    contains a space is the second field of the header split at spaces: the
    part after the first space, cut at the next space if there is one.  It
    is the whole part after the first space exactly when that part holds no
    further space.  A header without a space is the token as it stands.
    ["Bearer abc123"] gives ["abc123"] and so does ["abc123"].  The
    extraction never fails, and each of the four user-data handlers, given
    a non-empty header, resolves this very token first. *)
Theorem bearer_token_second_field (header : string) (st : state) :
  let token :=
    if contains " " header then before_first " " (after_first " " header)
    else header in
  bearer_token header st = (Return token, st)
  ∧ (contains " " header = true →
     (token = after_first " " header ↔ contains " " (after_first " " header) = false))
  ∧ (contains " " header = false → token = header)
  ∧ bearer_token "Bearer abc123" st = (Return "abc123", st)
  ∧ bearer_token "abc123" st = (Return "abc123", st)
  ∧ (truthy_str header = true →
     ∀ article : NewsArticle,
       calls (get_saved_news (Some header) st).2 !! List.length (calls st)
         = Some (Call_get_user token)
       ∧ calls (get_user_history (Some header) st).2 !! List.length (calls st)
         = Some (Call_get_user token)
       ∧ calls (save_article article (Some header) st).2 !! List.length (calls st)
         = Some (Call_get_user token)
       ∧ calls (add_to_history article (Some header) st).2 !! List.length (calls st)
         = Some (Call_get_user token)).
Proof.
  intros token. split; [apply bearer_token_value|].
  split.
  { intros Hin. subst token. rewrite Hin. split.
    - intros Heq. destruct (contains " " (after_first " " header)) eqn:Hc; [|done].
      exfalso. revert Heq Hc. generalize (after_first " " header) as t. clear.
      intros t Heq Hc.
      assert (contains " " (before_first " " t) = false) as Hnone.
      { clear. induction t as [|a t IH]; [done|]. cbn.
        destruct (Ascii.eqb a " ") eqn:Ha; [done|]. cbn. by rewrite Ha. }
      congruence.
    - apply before_first_absent. }
  split.
  { intros Hout. subst token. by rewrite Hout. }
  split; [apply bearer_token_value|].
  split; [apply bearer_token_value|].
  intros Hne article.
  apply handlers_resolve_bearer_token; [done | apply bearer_token_value].
Qed.

(** ** The fetch helper *)

Lemma deref_lookup (h : list dict) (r : nat) (d : dict) :
  h !! r = Some d → deref h r = d.
Proof. intros Hd. unfold deref. by rewrite Hd. Qed.

(** The whole of one [fetch_gnews] call made at an in-range cursor [c] on a
    live dictionary: the key at [c] is taken, stored under ["apikey"] in the
    caller's dictionary, and the request goes out with the dictionary as it
    then stands.  The result follows the three steps of the [try] block. *)
Lemma fetch_gnews_run
    (endpoint : string) (params : nat) (st : state)
    (c : nat) (key : string) (d : dict) :
  current_api_key_index st = Z.of_nat c →
  GNEWS_API_KEYS !! c = Some key →
  heap st !! params = Some d →
  let d' := <["apikey" := VStr key]> d in
  let target := base_url ++ "/" ++ endpoint in
  fetch_gnews endpoint params st
  = (match (requests_get target d' (world st)).1 with
     | inl e =>
         if is_request_exception e
         then HTTPException 400 ("Error fetching from GNews: " ++ exn_str e)
         else Uncaught e
     | inr response =>
         match raise_for_status response with
         | Some text => HTTPException 400 ("Error fetching from GNews: " ++ text)
         | None =>
             match json response with
             | inl e =>
                 if is_request_exception e
                 then HTTPException 400 ("Error fetching from GNews: " ++ exn_str e)
                 else Uncaught e
             | inr j => Return j
             end
         end
     end,
     State ((Z.of_nat c + 1) `mod` Z.of_nat (List.length GNEWS_API_KEYS))
           (<[params := d']> (heap st))
           (requests_get target d' (world st)).2
           (calls st ++ [Call_requests_get target d'])).
Proof.
  intros Hc Hkey Hd d' target.
  unfold fetch_gnews, bind. rewrite (get_gnews_api_key_at st c key Hc Hkey).
  unfold dict_setitem, try_except, lbind, do_requests_get, outbound,
    do_raise_for_status, lift_result, except_RequestException, raise.
  cbn [set_heap set_current_api_key_index heap world calls current_api_key_index].
  rewrite (deref_lookup _ _ _ Hd). fold d'.
  rewrite (deref_lookup (<[params := d']> (heap st)) params d')
    by (apply list_lookup_insert_eq; by apply lookup_lt_Some in Hd).
  fold target.
  destruct (requests_get target d' (world st)) as [[e|response] w']; cbn [fst snd].
  - by destruct (is_request_exception e).
  - destruct (raise_for_status response) as [text|]; cbn [is_request_exception exn_str].
    + done.
    + destruct (json response) as [e|j]; [|done].
      by destruct (is_request_exception e).
Qed.

(** C10. One [fetch_gnews] call on a non-empty key list (cursor in range)
    moves the cursor one step, to [(cursor + 1) mod N], whatever the
    upstream request does, and writes the key it took under ["apikey"]
    into the very dictionary the caller passed: after the call, failed or
    not, the caller's dictionary is the one passed plus that entry, and no
    other dictionary has changed. *)
Theorem fetch_gnews_advances_and_marks
    (endpoint : string) (params : nat) (st : state)
    (c : nat) (key : string) (d : dict) :
  current_api_key_index st = Z.of_nat c →
  GNEWS_API_KEYS !! c = Some key →
  heap st !! params = Some d →
  let st' := (fetch_gnews endpoint params st).2 in
  current_api_key_index st'
    = (current_api_key_index st + 1) `mod` Z.of_nat (List.length GNEWS_API_KEYS)
  ∧ heap st' !! params = Some (<["apikey" := VStr key]> d)
  ∧ (<["apikey" := VStr key]> d) !! "apikey" = Some (VStr key)
  ∧ (∀ k : string, k ≠ "apikey" → (<["apikey" := VStr key]> d) !! k = d !! k)
  ∧ (∀ other : nat, other ≠ params → heap st' !! other = heap st !! other)
  ∧ List.length (heap st') = List.length (heap st).
Proof.
  intros Hc Hkey Hd st'. subst st'.
  rewrite (fetch_gnews_run endpoint params st c key d Hc Hkey Hd).
  cbn [snd current_api_key_index heap]. rewrite Hc.
  split; [done|]. split.
  { apply list_lookup_insert_eq. by apply lookup_lt_Some in Hd. }
  split; [apply lookup_insert_eq|].
  split; [intros k Hk; by apply lookup_insert_ne|].
  split; [intros other Hother; by apply list_lookup_insert_ne|].
  apply length_insert.
Qed.

(** C5, amended.  When the upstream call fails in transport
    ([requests.get] raises a [RequestException]) or answers with an error
    status ([raise_for_status] raises), [fetch_gnews] raises
    [HTTPException] with status 400 and the detail
    ["Error fetching from GNews: "] followed by the text of the failure.
    Status and detail are all the error holds: the endpoint and the
    parameters are not part of it. *)
Theorem fetch_gnews_failure_is_400
    (endpoint : string) (params : nat) (st : state)
    (c : nat) (key : string) (d : dict) (text : string) :
  current_api_key_index st = Z.of_nat c →
  GNEWS_API_KEYS !! c = Some key →
  heap st !! params = Some d →
  let sent := requests_get (base_url ++ "/" ++ endpoint)
                (<["apikey" := VStr key]> d) (world st) in
  (∃ e : pyexn,
     sent.1 = inl e ∧ is_request_exception e = true ∧ exn_str e = text)
  ∨ (∃ response : Response J,
       sent.1 = inr response ∧ raise_for_status response = Some text) →
  (fetch_gnews endpoint params st).1
  = HTTPException 400 ("Error fetching from GNews: " ++ text).
Proof.
  intros Hc Hkey Hd sent Hfail. subst sent.
  rewrite (fetch_gnews_run endpoint params st c key d Hc Hkey Hd). cbn [fst].
  destruct Hfail as [[e (-> & -> & <-)]|[response [-> ->]]]; reflexivity.
Qed.

(** ** News endpoints *)

Lemma new_dict_lookup (d : dict) (st : state) :
  heap (set_heap (heap st ++ [d]) st) !! List.length (heap st) = Some d.
Proof. cbn [set_heap heap]. by apply list_lookup_middle. Qed.

(** C7. For any category string the handler hands [fetch_gnews] the
    endpoint ["top-headlines"] and a fresh dictionary holding exactly
    [topic] (the lowercased category), [lang], [max = 9] and [page]; no
    case of the handler looks at the category.  With a key available, the
    one request that leaves the process goes to
    [https://gnews.io/api/v4/top-headlines] with these parameters and the
    key. *)
Theorem category_sent_lowercased
    (category_name : string) (page : Z) (lang : string) (st : state) :
  let params := category_params category_name page lang in
  get_news_by_category category_name page lang st
  = fetch_gnews "top-headlines" (List.length (heap st))
      (set_heap (heap st ++ [params]) st)
  ∧ params !! "topic" = Some (VStr (str_lower category_name))
  ∧ params !! "lang" = Some (VStr lang)
  ∧ params !! "max" = Some (VInt 9)
  ∧ params !! "page" = Some (VInt page)
  ∧ dom params = ({["topic"; "lang"; "max"; "page"]} : gset string)
  ∧ (∀ (c : nat) (key : string),
       current_api_key_index st = Z.of_nat c →
       GNEWS_API_KEYS !! c = Some key →
       calls (get_news_by_category category_name page lang st).2
       = (calls st
          ++ [Call_requests_get "https://gnews.io/api/v4/top-headlines"
                (<["apikey" := VStr key]> params)])%list).
Proof.
  intros params. split; [reflexivity|].
  split; [by simplify_map_eq|]. split; [by simplify_map_eq|].
  split; [by simplify_map_eq|]. split; [by simplify_map_eq|].
  split.
  { subst params. unfold category_params. rewrite !dom_insert_L, dom_empty_L.
    set_solver. }
  intros c key Hc Hkey.
  change (get_news_by_category category_name page lang st)
    with (fetch_gnews "top-headlines" (List.length (heap st))
            (set_heap (heap st ++ [params]) st)).
  by rewrite (fetch_gnews_run "top-headlines" (List.length (heap st))
                (set_heap (heap st ++ [params]) st) c key params
                Hc Hkey (new_dict_lookup params st)).
Qed.

(** C6, amended.  A search with the empty query raises [HTTPException]
    with status 400 and leaves the whole state as it was: the cursor has
    not moved and no outbound call has been made.  A search with a
    non-empty query hands [fetch_gnews] the endpoint ["search"] and a fresh
    dictionary holding exactly [q], [lang], [max = 9], [page] and
    [sortby = "publishedAt"]. *)
Theorem search_requires_query
    (q : string) (page : Z) (lang : string) (st : state) :
  (truthy_str q = false →
     q = ""
     ∧ search_news q page lang st
       = (HTTPException 400 "Search query parameter 'q' is required.", st))
  ∧ (truthy_str q = true →
       let params := search_params q page lang in
       search_news q page lang st
       = fetch_gnews "search" (List.length (heap st))
           (set_heap (heap st ++ [params]) st)
       ∧ params !! "q" = Some (VStr q)
       ∧ params !! "lang" = Some (VStr lang)
       ∧ params !! "max" = Some (VInt 9)
       ∧ params !! "page" = Some (VInt page)
       ∧ params !! "sortby" = Some (VStr "publishedAt")
       ∧ dom params = ({["q"; "lang"; "max"; "page"; "sortby"]} : gset string)
       ∧ (∀ (c : nat) (key : string),
            current_api_key_index st = Z.of_nat c →
            GNEWS_API_KEYS !! c = Some key →
            calls (search_news q page lang st).2
            = (calls st
               ++ [Call_requests_get "https://gnews.io/api/v4/search"
                     (<["apikey" := VStr key]> params)])%list)).
Proof.
  split.
  - intros Hq. split; [by destruct q|]. unfold search_news. by rewrite Hq.
  - intros Hquery params.
    assert (search_news q page lang st
            = fetch_gnews "search" (List.length (heap st))
                (set_heap (heap st ++ [params]) st)) as Hrun.
    { unfold search_news. rewrite Hquery. reflexivity. }
    split; [exact Hrun|].
    split; [by simplify_map_eq|]. split; [by simplify_map_eq|].
    split; [by simplify_map_eq|]. split; [by simplify_map_eq|].
    split; [by simplify_map_eq|]. split.
    { subst params. unfold search_params. rewrite !dom_insert_L, dom_empty_L.
      set_solver. }
    intros c key Hc Hkey. rewrite Hrun.
    by rewrite (fetch_gnews_run "search" (List.length (heap st))
                  (set_heap (heap st ++ [params]) st) c key params
                  Hc Hkey (new_dict_lookup params st)).
Qed.

(** ** Authentication endpoints *)

(** C4, amended.  When [sign_in_with_password] raises, whatever the
    exception, [login] raises [HTTPException] with status 401 and the fixed
    detail ["Invalid login credentials."] (the detail ends with a full
    stop); the text of the exception is not used.  When [sign_up] raises,
    [signup] raises [HTTPException] with status 400 and [str] of the
    exception as its detail. *)
Theorem auth_failure_details (user_credentials : UserAuth) (st : state) (e : pyexn) (w' : W) :
  (auth_sign_in_with_password
     (email user_credentials) (password user_credentials) (world st) = (inl e, w') →
   (login user_credentials st).1 = HTTPException 401 "Invalid login credentials.")
  ∧ (auth_sign_up
       {| su_email := email user_credentials;
          su_password := password user_credentials;
          su_options_data_name :=
            if truthy_opt (name user_credentials) then name user_credentials
            else None |} (world st) = (inl e, w') →
     (signup user_credentials st).1 = HTTPException 400 (exn_str e)).
Proof.
  split; intros Hfail.
  - unfold login. run_handler. by rewrite Hfail.
  - unfold signup. run_handler. by rewrite Hfail.
Qed.

(** ** Writing per-user records *)

(** Both write handlers, once the token has resolved to [user_id]. *)
Lemma save_article_run
    (article : NewsArticle) (header token user_id : string) (st : state) (w1 : W) :
  truthy_str header = true →
  bearer_token header st = (Return token, st) →
  auth_get_user token (world st) = (inr (Some user_id), w1) →
  let record := <["user_id" := VStr user_id]> (NewsArticle_dict article) in
  save_article article (Some header) st
  = (match (table_insert "savednews" record w1).1 with
     | inl e => HTTPException 500 ("Failed to save article: " ++ exn_str e)
     | inr _ => Return (Reply_message "Article saved")
     end,
     State (current_api_key_index st) (heap st)
       (table_insert "savednews" record w1).2
       (calls st ++ [Call_get_user token; Call_insert "savednews" record])).
Proof.
  intros Hne Htok Huser record.
  rewrite save_article_token by done. unfold bind. rewrite Htok.
  unfold resolve_user_id. run_handler. rewrite Huser. cbn [world calls].
  fold record. rewrite <- app_assoc. cbn [app].
  by destruct (table_insert "savednews" record w1) as [[e|r] w2].
Qed.

Lemma add_to_history_run
    (article : NewsArticle) (header token user_id : string) (st : state) (w1 : W) :
  truthy_str header = true →
  bearer_token header st = (Return token, st) →
  auth_get_user token (world st) = (inr (Some user_id), w1) →
  let record := <["user_id" := VStr user_id]> (NewsArticle_dict article) in
  add_to_history article (Some header) st
  = (match (table_insert "history" record w1).1 with
     | inl e => HTTPException 401 "Invalid token"
     | inr _ => Return (Reply_message "Article added to history")
     end,
     State (current_api_key_index st) (heap st)
       (table_insert "history" record w1).2
       (calls st ++ [Call_get_user token; Call_insert "history" record])).
Proof.
  intros Hne Htok Huser record.
  rewrite add_to_history_token by done. unfold bind. rewrite Htok.
  unfold resolve_user_id. run_handler. rewrite Huser. cbn [world calls].
  fold record. rewrite <- app_assoc. cbn [app].
  by destruct (table_insert "history" record w1) as [[e|r] w2].
Qed.

(** C8. Once the token has resolved to a user id, [save_article] makes
    exactly one insert, into [savednews], of a record whose [user_id] is
    the resolved id and whose other entries are those of [article.dict()]:
    the six declared fields of the article, nothing else.  The id comes
    from the token alone: the article type has no such field, and the
    assignment would replace an entry of that name in any dictionary. *)
Theorem save_article_attaches_user_id
    (article : NewsArticle) (header token user_id : string) (st : state) (w1 : W) :
  truthy_str header = true →
  bearer_token header st = (Return token, st) →
  auth_get_user token (world st) = (inr (Some user_id), w1) →
  ∃ record : dict,
    calls (save_article article (Some header) st).2
      = (calls st ++ [Call_get_user token; Call_insert "savednews" record])%list
    ∧ record !! "user_id" = Some (VStr user_id)
    ∧ delete "user_id" record = NewsArticle_dict article
    ∧ record !! "title" = Some (VStr (title article))
    ∧ record !! "description" = Some (VStr (description article))
    ∧ record !! "content" = Some (of_optional (content article))
    ∧ record !! "url" = Some (VStr (url article))
    ∧ record !! "image" = Some (of_optional (image article))
    ∧ record !! "publishedAt" = Some (of_optional (publishedAt article))
    ∧ dom record
      = ({["user_id"; "title"; "description"; "content"; "url"; "image";
           "publishedAt"]} : gset string)
    ∧ (∀ body : dict,
         (<["user_id" := VStr user_id]> body) !! "user_id" = Some (VStr user_id)).
Proof.
  intros Hne Htok Huser.
  exists (<["user_id" := VStr user_id]> (NewsArticle_dict article)).
  rewrite (save_article_run article header token user_id st w1 Hne Htok Huser).
  split; [reflexivity|].
  split; [apply lookup_insert_eq|].
  split; [by rewrite delete_insert_id by done|].
  unfold NewsArticle_dict.
  do 6 (split; [by simplify_map_eq|]).
  split; [|intros body; apply lookup_insert_eq].
  rewrite !dom_insert_L, dom_empty_L. set_solver.
Qed.

(** C9. Once the token has resolved, a failing insert makes [save_article]
    raise [HTTPException] with status 500 (detail
    ["Failed to save article: "] and the text of the failure), while the
    same failure makes [add_to_history] raise [HTTPException] with status
    401 and detail ["Invalid token"].  When the insert succeeds the
    handlers return the fixed messages ["Article saved"] and
    ["Article added to history"]. *)
Theorem insert_failure_status
    (article : NewsArticle) (header token user_id : string) (st : state) (w1 : W) :
  truthy_str header = true →
  bearer_token header st = (Return token, st) →
  auth_get_user token (world st) = (inr (Some user_id), w1) →
  let record := <["user_id" := VStr user_id]> (NewsArticle_dict article) in
  (∀ (e : pyexn) (w2 : W),
     table_insert "savednews" record w1 = (inl e, w2) →
     (save_article article (Some header) st).1
     = HTTPException 500 ("Failed to save article: " ++ exn_str e))
  ∧ (∀ (e : pyexn) (w2 : W),
       table_insert "history" record w1 = (inl e, w2) →
       (add_to_history article (Some header) st).1
       = HTTPException 401 "Invalid token")
  ∧ (∀ (r : J) (w2 : W),
       table_insert "savednews" record w1 = (inr r, w2) →
       (save_article article (Some header) st).1
       = Return (Reply_message "Article saved"))
  ∧ (∀ (r : J) (w2 : W),
       table_insert "history" record w1 = (inr r, w2) →
       (add_to_history article (Some header) st).1
       = Return (Reply_message "Article added to history")).
Proof.
  intros Hne Htok Huser record.
  rewrite (save_article_run article header token user_id st w1 Hne Htok Huser).
  rewrite (add_to_history_run article header token user_id st w1 Hne Htok Huser).
  fold record. cbn [fst].
  repeat split; intros x w2 Hins; by rewrite Hins.
Qed.

(** ** Further properties of the news endpoints *)

(** The dictionary [get_top_headlines] builds, before the key is added. *)
Definition headline_params (page : Z) (lang : string) : dict :=
  <["lang" := VStr lang]> (<["max" := VInt 9]> (<["page" := VInt page]> ∅)).

(** A request on one of the three news routes (a search may come without
    its query), and requests handled one after another, each from the state
    the one before left. *)
Inductive news_request : Type :=
| Top_headlines (page : Z) (lang : string)
| By_category (category_name : string) (page : Z) (lang : string)
| Search (q : option string) (page : Z) (lang : string).

Definition serve_news (r : news_request) : M J :=
  match r with
  | Top_headlines page lang => get_top_headlines page lang
  | By_category category_name page lang => get_news_by_category category_name page lang
  | Search q page lang => call_search_news q (Some page) (Some lang)
  end.

Fixpoint serve_all (rs : list news_request) (st : state) : state :=
  match rs with
  | [] => st
  | r :: rs' => serve_all rs' (serve_news r st).2
  end.

(** The [i]-th outbound call is a GNews request carrying the key at
    position [i mod N] and the page size 9. *)
Definition keyed (i : nat) (c : call) : Prop :=
  ∃ (target : string) (params : dict) (key : string),
    c = Call_requests_get target params
    ∧ GNEWS_API_KEYS !! (i `mod` List.length GNEWS_API_KEYS)%nat = Some key
    ∧ params !! "apikey" = Some (VStr key)
    ∧ params !! "max" = Some (VInt 9).

(** The cursor counts the outbound calls modulo [N], and every call made so
    far is [keyed]. *)
Definition in_step (st : state) : Prop :=
  current_api_key_index st
  = Z.of_nat (List.length (calls st) `mod` List.length GNEWS_API_KEYS)%nat
  ∧ ∀ (i : nat) (c : call), calls st !! i = Some c → keyed i c.

Definition is_requests_get (c : call) : bool :=
  match c with
  | Call_requests_get _ _ => true
  | _ => false
  end.

(** The rotator touches nothing but the cursor. *)
Lemma get_gnews_api_key_frame (st : state) :
  heap (get_gnews_api_key st).2 = heap st
  ∧ world (get_gnews_api_key st).2 = world st
  ∧ calls (get_gnews_api_key st).2 = calls st.
Proof.
  unfold get_gnews_api_key.
  destruct (negb (truthy_list GNEWS_API_KEYS)); [done|].
  by destruct (getitem GNEWS_API_KEYS (current_api_key_index st)).
Qed.

(** X1. [get_top_headlines] hands [fetch_gnews] the endpoint
    ["top-headlines"] and a fresh dictionary holding exactly [lang],
    [max = 9] and [page]; with a key available the one request that leaves
    the process goes to [https://gnews.io/api/v4/top-headlines] with these
    parameters and the key, and the cursor has moved one step. *)
Theorem top_headlines_request (page : Z) (lang : string) (st : state) :
  let params := headline_params page lang in
  dom params = ({["lang"; "max"; "page"]} : gset string)
  ∧ params !! "lang" = Some (VStr lang)
  ∧ params !! "max" = Some (VInt 9)
  ∧ params !! "page" = Some (VInt page)
  ∧ (∀ (c : nat) (key : string),
       current_api_key_index st = Z.of_nat c →
       GNEWS_API_KEYS !! c = Some key →
       calls (get_top_headlines page lang st).2
       = (calls st
          ++ [Call_requests_get "https://gnews.io/api/v4/top-headlines"
                (<["apikey" := VStr key]> params)])%list
       ∧ current_api_key_index (get_top_headlines page lang st).2
         = (Z.of_nat c + 1) `mod` Z.of_nat (List.length GNEWS_API_KEYS)).
Proof.
  intros params. split.
  { subst params. unfold headline_params. rewrite !dom_insert_L, dom_empty_L.
    set_solver. }
  do 3 (split; [by simplify_map_eq|]).
  intros c key Hc Hkey.
  change (get_top_headlines page lang st)
    with (fetch_gnews "top-headlines" (List.length (heap st))
            (set_heap (heap st ++ [params]) st)).
  by rewrite (fetch_gnews_run "top-headlines" (List.length (heap st))
                (set_heap (heap st ++ [params]) st) c key params
                Hc Hkey (new_dict_lookup params st)).
Qed.

(** X2. What [fetch_gnews] gives back once the request has gone out: the
    parsed body when the status is fine and the body parses; status 400
    when parsing the body raises a [RequestException]; and an exception
    that is not a [RequestException], raised by [requests.get] or by the
    parsing, is not caught: it leaves [fetch_gnews] as it is. *)
Theorem fetch_gnews_outcomes
    (endpoint : string) (params : nat) (st : state)
    (c : nat) (key : string) (d : dict) :
  current_api_key_index st = Z.of_nat c →
  GNEWS_API_KEYS !! c = Some key →
  heap st !! params = Some d →
  let sent := requests_get (base_url ++ "/" ++ endpoint)
                (<["apikey" := VStr key]> d) (world st) in
  (∀ (response : Response J) (j : J),
     sent.1 = inr response → raise_for_status response = None →
     json response = inr j →
     (fetch_gnews endpoint params st).1 = Return j)
  ∧ (∀ (response : Response J) (e : pyexn),
       sent.1 = inr response → raise_for_status response = None →
       json response = inl e →
       (fetch_gnews endpoint params st).1
       = if is_request_exception e
         then HTTPException 400 ("Error fetching from GNews: " ++ exn_str e)
         else Uncaught e)
  ∧ (∀ e : pyexn,
       sent.1 = inl e → is_request_exception e = false →
       (fetch_gnews endpoint params st).1 = Uncaught e).
Proof.
  intros Hc Hkey Hd sent. subst sent.
  rewrite (fetch_gnews_run endpoint params st c key d Hc Hkey Hd). cbn [fst].
  split; [|split].
  - intros response j -> -> ->. reflexivity.
  - intros response e -> -> ->. reflexivity.
  - intros e -> ->. reflexivity.
Qed.

(** X3. Without any configured key [fetch_gnews] raises status 500 and
    leaves the state as it was: nothing is sent and the caller's dictionary
    gets no ["apikey"].  The three news handlers then raise the same 500
    with no outbound call, except that a search with the empty query is
    still answered with 400: the query is checked before a key is asked
    for. *)
Theorem no_keys_no_request
    (endpoint : string) (params : nat) (page : Z) (lang : string)
    (category_name : string) (q : string) (st : state) :
  GNEWS_API_KEYS = [] →
  fetch_gnews endpoint params st
  = (HTTPException 500 "GNews API keys not configured.", st)
  ∧ (get_top_headlines page lang st).1
    = HTTPException 500 "GNews API keys not configured."
  ∧ (get_news_by_category category_name page lang st).1
    = HTTPException 500 "GNews API keys not configured."
  ∧ (search_news q page lang st).1
    = (if truthy_str q
       then HTTPException 500 "GNews API keys not configured."
       else HTTPException 400 "Search query parameter 'q' is required.")
  ∧ calls (get_top_headlines page lang st).2 = calls st
  ∧ calls (get_news_by_category category_name page lang st).2 = calls st
  ∧ calls (search_news q page lang st).2 = calls st
  ∧ world (get_top_headlines page lang st).2 = world st
  ∧ world (get_news_by_category category_name page lang st).2 = world st
  ∧ world (search_news q page lang st).2 = world st.
Proof.
  intros Hempty.
  assert (∀ ep r st0, fetch_gnews ep r st0
          = (HTTPException 500 "GNews API keys not configured.", st0)) as Hfetch.
  { intros ep r st0. unfold fetch_gnews, bind, get_gnews_api_key.
    by rewrite Hempty. }
  split; [apply Hfetch|].
  unfold get_top_headlines, get_news_by_category, search_news, bind, new_dict.
  destruct (truthy_str q); cbn [negb]; rewrite ?Hfetch; by repeat split.
Qed.

(** One request sent from a state that is [in_step] leaves a state that is
    [in_step]. *)
Lemma in_step_fetch (endpoint : string) (d : dict) (st : state) :
  GNEWS_API_KEYS ≠ [] →
  d !! "max" = Some (VInt 9) →
  in_step st →
  in_step (fetch_gnews endpoint (List.length (heap st))
             (set_heap (heap st ++ [d]) st)).2.
Proof.
  intros Hne Hmax [Hcur Hcalls].
  assert (0 < List.length GNEWS_API_KEYS)%nat as Hpos
    by (destruct GNEWS_API_KEYS; [done | cbn; lia]).
  set (c := (List.length (calls st) `mod` List.length GNEWS_API_KEYS)%nat) in *.
  assert (c < List.length GNEWS_API_KEYS)%nat as Hlt
    by (apply Nat.mod_upper_bound; lia).
  destruct (lookup_lt_is_Some_2 _ _ Hlt) as [key Hkey].
  rewrite (fetch_gnews_run endpoint (List.length (heap st))
             (set_heap (heap st ++ [d]) st) c key d
             Hcur Hkey (new_dict_lookup d st)).
  cbn [snd]. split; cbn [current_api_key_index calls set_heap].
  - rewrite length_app. cbn [List.length]. subst c.
    rewrite !Nat2Z.inj_mod, Nat2Z.inj_add.
    by rewrite Z.add_mod_idemp_l by lia.
  - intros i c' Hi. apply lookup_app_Some in Hi as [Hold|[Hge Hnew]].
    + by apply Hcalls.
    + apply list_lookup_singleton_Some in Hnew as [Hzero <-].
      assert (i = List.length (calls st)) as -> by lia.
      exists (base_url ++ "/" ++ endpoint), (<["apikey" := VStr key]> d), key.
      split; [done|]. split; [exact Hkey|].
      split; [apply lookup_insert_eq|].
      by rewrite lookup_insert_ne.
Qed.

Lemma in_step_serve_news (r : news_request) (st : state) :
  GNEWS_API_KEYS ≠ [] → in_step st → in_step (serve_news r st).2.
Proof.
  intros Hne Hst. destruct r as [page lang|category_name page lang|q page lang].
  - apply (in_step_fetch "top-headlines" (headline_params page lang) st Hne);
      [by simplify_map_eq | done].
  - apply (in_step_fetch "top-headlines"
             (category_params category_name page lang) st Hne);
      [by simplify_map_eq | done].
  - cbn [serve_news]. unfold call_search_news.
    destruct q as [q|]; [|done]. cbn [default]. unfold search_news.
    destruct (truthy_str q) eqn:Hq; cbn [negb]; [|done].
    apply (in_step_fetch "search" (search_params q page lang) st Hne);
      [by simplify_map_eq | done].
Qed.

(** X4. News requests handled one after another from a fresh start, with
    a non-empty key list: whatever the requests are and however upstream
    answers, every outbound call is a GNews request, the [i]-th of them
    (counting from 0) carries the key at position [i mod N] and [max = 9],
    and the cursor equals the number of requests sent so far modulo [N].
    A search refused for its empty query sends nothing and uses no key. *)
Theorem keys_follow_request_count (rs : list news_request) (w : W) :
  GNEWS_API_KEYS ≠ [] →
  let st := serve_all rs (initial_state w) in
  current_api_key_index st
  = Z.of_nat (List.length (calls st) `mod` List.length GNEWS_API_KEYS)%nat
  ∧ ∀ (i : nat) (c : call), calls st !! i = Some c → keyed i c.
Proof.
  intros Hne.
  assert (∀ st0, in_step st0 → in_step (serve_all rs st0)) as Hall.
  { induction rs as [|r rs IH]; intros st0 Hst0; [done|].
    cbn [serve_all]. apply IH. by apply in_step_serve_news. }
  apply Hall. split; [|by intros i c Hi].
  cbn. by rewrite Nat.Div0.mod_0_l.
Qed.

(** ** Further properties of the user-data endpoints *)

(** X5. A request without an [Authorization] header, or with an empty
    one, is refused by each of the four user-data handlers with status 401
    and detail ["Unauthorized"], and the state is untouched: no call to
    Supabase is made. *)
Theorem missing_header_is_unauthorized
    (article : NewsArticle) (authorization : option string) (st : state) :
  truthy_opt authorization = false →
  get_saved_news authorization st = (HTTPException 401 "Unauthorized", st)
  ∧ get_user_history authorization st = (HTTPException 401 "Unauthorized", st)
  ∧ save_article article authorization st = (HTTPException 401 "Unauthorized", st)
  ∧ add_to_history article authorization st = (HTTPException 401 "Unauthorized", st).
Proof.
  intros Hnone.
  unfold get_saved_news, get_user_history, save_article, add_to_history.
  destruct authorization as [header|]; [|done].
  cbn [truthy_opt] in Hnone. by rewrite Hnone.
Qed.

(** X6. When [get_user] raises or returns no user, each of the four
    handlers raises status 401 with detail ["Invalid token"], and the
    [get_user] call is the only call made: nothing is read from or written
    to a table. *)
Theorem unresolved_token_stops_handlers
    (article : NewsArticle) (header token : string) (st : state)
    (r : pyexn + option string) (w1 : W) :
  truthy_str header = true →
  bearer_token header st = (Return token, st) →
  auth_get_user token (world st) = (r, w1) →
  r = inr None ∨ (∃ e : pyexn, r = inl e) →
  let refused :=
    (HTTPException 401 "Invalid token" : outcome reply,
     State (current_api_key_index st) (heap st) w1
       (calls st ++ [Call_get_user token])) in
  get_saved_news (Some header) st = refused
  ∧ get_user_history (Some header) st = refused
  ∧ save_article article (Some header) st = refused
  ∧ add_to_history article (Some header) st = refused.
Proof.
  intros Hne Htok Huser Hr refused. subst refused.
  rewrite get_saved_news_token, get_user_history_token,
    save_article_token, add_to_history_token by done.
  unfold bind. rewrite Htok. unfold resolve_user_id. run_handler.
  rewrite Huser. by destruct Hr as [->|[e ->]].
Qed.

(** X7. With a token that resolves to [user_id], [get_saved_news] reads
    [savednews] and [get_user_history] reads [history], both filtered on
    [user_id] equal to the resolved id, and return the rows as the store
    gave them; a failing read is answered with status 401 and detail
    ["Invalid token"]. *)
Theorem reads_are_filtered_by_user
    (header token user_id : string) (st : state) (w1 : W) :
  truthy_str header = true →
  bearer_token header st = (Return token, st) →
  auth_get_user token (world st) = (inr (Some user_id), w1) →
  get_saved_news (Some header) st
  = (match (table_select_eq "savednews" "user_id" user_id w1).1 with
     | inl _ => HTTPException 401 "Invalid token"
     | inr rows => Return (Reply_rows rows)
     end,
     State (current_api_key_index st) (heap st)
       (table_select_eq "savednews" "user_id" user_id w1).2
       (calls st ++ [Call_get_user token;
                     Call_select_eq "savednews" "user_id" user_id]))
  ∧ get_user_history (Some header) st
    = (match (table_select_eq "history" "user_id" user_id w1).1 with
       | inl _ => HTTPException 401 "Invalid token"
       | inr rows => Return (Reply_rows rows)
       end,
       State (current_api_key_index st) (heap st)
         (table_select_eq "history" "user_id" user_id w1).2
         (calls st ++ [Call_get_user token;
                       Call_select_eq "history" "user_id" user_id])).
Proof.
  intros Hne Htok Huser.
  rewrite get_saved_news_token, get_user_history_token by done.
  unfold bind. rewrite Htok. unfold resolve_user_id. run_handler.
  rewrite Huser. cbn [world calls]. rewrite <- !app_assoc. cbn [app].
  split.
  - by destruct (table_select_eq "savednews" "user_id" user_id w1) as [[e|rows] w2].
  - by destruct (table_select_eq "history" "user_id" user_id w1) as [[e|rows] w2].
Qed.

(** X8. Once the token has resolved to a user id, [add_to_history] makes
    exactly one insert, into [history], of a record whose [user_id] is the
    resolved id and whose other entries are the six fields of
    [article.dict()]. *)
Theorem add_to_history_attaches_user_id
    (article : NewsArticle) (header token user_id : string) (st : state) (w1 : W) :
  truthy_str header = true →
  bearer_token header st = (Return token, st) →
  auth_get_user token (world st) = (inr (Some user_id), w1) →
  ∃ record : dict,
    calls (add_to_history article (Some header) st).2
      = (calls st ++ [Call_get_user token; Call_insert "history" record])%list
    ∧ record !! "user_id" = Some (VStr user_id)
    ∧ delete "user_id" record = NewsArticle_dict article
    ∧ dom record
      = ({["user_id"; "title"; "description"; "content"; "url"; "image";
           "publishedAt"]} : gset string).
Proof.
  intros Hne Htok Huser.
  exists (<["user_id" := VStr user_id]> (NewsArticle_dict article)).
  rewrite (add_to_history_run article header token user_id st w1 Hne Htok Huser).
  split; [reflexivity|].
  split; [apply lookup_insert_eq|].
  split; [by rewrite delete_insert_id by done|].
  unfold NewsArticle_dict. rewrite !dom_insert_L, dom_empty_L. set_solver.
Qed.

(** X9. [test_saved_articles] asks for no token, reads the whole of
    [savednews] in one call, and never raises: it returns the rows, or the
    text of the failure as an [error] reply. *)
Theorem test_saved_articles_never_raises (st : state) :
  calls (test_saved_articles st).2 = (calls st ++ [Call_select_all "savednews"])%list
  ∧ (test_saved_articles st).1
    = match (table_select_all "savednews" (world st)).1 with
      | inl e => Return (Reply_error (exn_str e))
      | inr rows => Return (Reply_saved_articles rows)
      end
  ∧ ∃ r : reply, (test_saved_articles st).1 = Return r.
Proof.
  unfold test_saved_articles. run_handler.
  destruct (table_select_all "savednews" (world st)) as [[e|rows] w1];
    cbn [fst snd calls]; repeat split; eauto.
Qed.

(** ** Further properties of the authentication endpoints *)

(** The argument [signup] passes to [sign_up]. *)
Definition signup_data (user_credentials : UserAuth) : SignUpData :=
  {| su_email := email user_credentials;
     su_password := password user_credentials;
     su_options_data_name :=
       if truthy_opt (name user_credentials) then name user_credentials else None |}.

(** X10. [signup] makes exactly one call, [sign_up], with the email and
    password it was given; the profile name goes along only when it is a
    non-empty string (an empty name is dropped like a missing one).  On
    success the user and session come back as the service gave them, and
    the only error [signup] raises has status 400. *)
Theorem signup_forwards (user_credentials : UserAuth) (st : state) :
  calls (signup user_credentials st).2
    = (calls st ++ [Call_sign_up (signup_data user_credentials)])%list
  ∧ (su_options_data_name (signup_data user_credentials) = None
     ↔ truthy_opt (name user_credentials) = false)
  ∧ (∀ n : string,
       su_options_data_name (signup_data user_credentials) = Some n →
       name user_credentials = Some n ∧ n ≠ "")
  ∧ (∀ (r : AuthResponse J) (w' : W),
       auth_sign_up (signup_data user_credentials) (world st) = (inr r, w') →
       (signup user_credentials st).1
       = Return (Reply_user_session (user r) (session r)))
  ∧ (∀ (status_code : Z) (detail : string),
       (signup user_credentials st).1 = HTTPException status_code detail →
       status_code = 400)
  ∧ (∀ e : pyexn, (signup user_credentials st).1 ≠ Uncaught e).
Proof.
  unfold signup. fold (signup_data user_credentials). run_handler.
  split.
  { by destruct (auth_sign_up _ (world st)) as [[e|r] w1]. }
  split.
  { unfold signup_data. cbn [su_options_data_name].
    destruct (name user_credentials) as [[|a n]|]; cbn; split; done. }
  split.
  { unfold signup_data. cbn [su_options_data_name].
    destruct (name user_credentials) as [[|a n]|]; cbn; [done| |done].
    intros n' [= <-]. done. }
  split.
  { intros r w' Hok. by rewrite Hok. }
  destruct (auth_sign_up _ (world st)) as [[e|r] w1]; cbn [fst]; split;
    try done; by intros status_code detail [= <- _].
Qed.

(** X11. [login] makes exactly one call, [sign_in_with_password], with
    the email and password it was given; the name in the request body
    plays no part.  On success the user and session come back as the
    service gave them, and the only error [login] raises has status 401. *)
Theorem login_forwards (user_credentials : UserAuth) (st : state) :
  calls (login user_credentials st).2
    = (calls st
       ++ [Call_sign_in_with_password
             (email user_credentials) (password user_credentials)])%list
  ∧ (∀ other : UserAuth,
       email other = email user_credentials →
       password other = password user_credentials →
       login other st = login user_credentials st)
  ∧ (∀ (r : AuthResponse J) (w' : W),
       auth_sign_in_with_password
         (email user_credentials) (password user_credentials) (world st)
       = (inr r, w') →
       (login user_credentials st).1
       = Return (Reply_user_session (user r) (session r)))
  ∧ (∀ (status_code : Z) (detail : string),
       (login user_credentials st).1 = HTTPException status_code detail →
       status_code = 401)
  ∧ (∀ e : pyexn, (login user_credentials st).1 ≠ Uncaught e).
Proof.
  split.
  { unfold login. run_handler.
    by destruct (auth_sign_in_with_password _ _ (world st)) as [[e|r] w1]. }
  split.
  { intros other Hemail Hpassword. unfold login. by rewrite Hemail, Hpassword. }
  unfold login. run_handler.
  split.
  { intros r w' Hok. by rewrite Hok. }
  destruct (auth_sign_in_with_password _ _ (world st)) as [[e|r] w1];
    cbn [fst]; split; try done; by intros status_code detail [= <- _].
Qed.

(** ** What the two halves of the gateway leave alone *)

(** The handlers that talk to Supabase. *)
Definition supabase_handlers
    (user_credentials : UserAuth) (article : NewsArticle)
    (authorization : option string) : list (M reply) :=
  [signup user_credentials; login user_credentials;
   get_saved_news authorization; get_user_history authorization;
   save_article article authorization; add_to_history article authorization;
   test_saved_articles].

(** What a handler does to the state when it sends nothing to GNews: the
    cursor and the heap are as before, and the calls it added, two at most,
    are not GNews requests. *)
Definition leaves_rotation_alone (h : M reply) : Prop :=
  ∀ st : state,
    current_api_key_index (h st).2 = current_api_key_index st
    ∧ heap (h st).2 = heap st
    ∧ ∃ new : list call,
        calls (h st).2 = (calls st ++ new)%list
        ∧ forallb (fun c => negb (is_requests_get c)) new = true
        ∧ (List.length new ≤ 2)%nat.

Ltac case_scrutinee :=
  match goal with
  | |- context [match ?x with _ => _ end] =>
      lazymatch x with
      | context [match _ with _ => _ end] => fail
      | _ => destruct x eqn:?
      end
  end.

Ltac added_calls :=
  cbn [fst snd calls heap current_api_key_index];
  split; [reflexivity|]; split; [reflexivity|];
  eexists; split;
  [ first [ symmetry; apply app_nil_r | rewrite <- ?app_assoc; reflexivity ]
  | split; [reflexivity | cbn; lia] ].

(** X12. None of the seven handlers that talk to Supabase (signup, login,
    the two reads, the two writes and the diagnostic read) moves the key
    cursor, changes a parameter dictionary or sends a GNews request,
    whatever the header, the body and the answers of the service; each
    makes two outbound calls at most. *)
Theorem supabase_side_leaves_rotation_alone
    (user_credentials : UserAuth) (article : NewsArticle)
    (authorization : option string) :
  Forall leaves_rotation_alone
    (supabase_handlers user_credentials article authorization).
Proof.
  unfold supabase_handlers.
  repeat apply Forall_cons_2; [..|apply Forall_nil_2]; intros st;
    unfold signup, login, get_saved_news, get_user_history, save_article,
      add_to_history, test_saved_articles, resolve_user_id, throw;
    run_handler; repeat case_scrutinee; simplify_eq; added_calls.
Qed.

(** [fetch_gnews] sends one request at most and writes no dictionary but
    the one it was handed. *)
Lemma fetch_gnews_frame (endpoint : string) (params : nat) (st : state) :
  (∃ new : list call,
     calls (fetch_gnews endpoint params st).2 = (calls st ++ new)%list
     ∧ forallb is_requests_get new = true
     ∧ (List.length new ≤ 1)%nat)
  ∧ List.length (heap (fetch_gnews endpoint params st).2) = List.length (heap st)
  ∧ ∀ other : nat,
      other ≠ params →
      heap (fetch_gnews endpoint params st).2 !! other = heap st !! other.
Proof.
  unfold fetch_gnews, bind, get_gnews_api_key, dict_setitem, try_except, lbind,
    do_requests_get, outbound, do_raise_for_status, lift_result, raise, ret, throw,
    except_RequestException.
  destruct (negb (truthy_list GNEWS_API_KEYS)).
  { cbn. split; [exists []; rewrite app_nil_r; repeat split; cbn; lia|]. by split. }
  destruct (getitem GNEWS_API_KEYS (current_api_key_index st)) as [key|].
  2:{ cbn. split; [exists []; rewrite app_nil_r; repeat split; cbn; lia|]. by split. }
  cbn [set_heap set_current_api_key_index heap world calls current_api_key_index].
  repeat case_scrutinee; simplify_eq;
    cbn [fst snd calls heap];
    (split; [eexists; split; [reflexivity | split; [reflexivity | cbn; lia]]|]);
    (split; [apply length_insert | intros other Hother; by apply list_lookup_insert_ne]).
Qed.

(** X13. A news request, on any of the three routes and in any state,
    sends one GNews request at most and never calls Supabase; the
    dictionaries that existed before it are left as they were. *)
Theorem news_side_leaves_supabase_alone (r : news_request) (st : state) :
  (∃ new : list call,
     calls (serve_news r st).2 = (calls st ++ new)%list
     ∧ forallb is_requests_get new = true
     ∧ (List.length new ≤ 1)%nat)
  ∧ ∀ (i : nat) (d : dict),
      heap st !! i = Some d → heap (serve_news r st).2 !! i = Some d.
Proof.
  assert (∀ endpoint d,
            (∃ new : list call,
               calls (fetch_gnews endpoint (List.length (heap st))
                        (set_heap (heap st ++ [d]) st)).2 = (calls st ++ new)%list
               ∧ forallb is_requests_get new = true
               ∧ (List.length new ≤ 1)%nat)
            ∧ ∀ (i : nat) (d0 : dict),
                heap st !! i = Some d0 →
                heap (fetch_gnews endpoint (List.length (heap st))
                        (set_heap (heap st ++ [d]) st)).2 !! i = Some d0) as Hfetch.
  { intros endpoint d.
    destruct (fetch_gnews_frame endpoint (List.length (heap st))
                (set_heap (heap st ++ [d]) st)) as (Hnew & _ & Hother).
    split; [exact Hnew|].
    intros i d0 Hi. rewrite Hother.
    - cbn [set_heap heap]. by apply lookup_app_l_Some.
    - apply lookup_lt_Some in Hi. lia. }
  destruct r as [page lang|category_name page lang|q page lang]; cbn [serve_news].
  - apply Hfetch.
  - apply Hfetch.
  - unfold call_search_news. destruct q as [q|]; cbn [default].
    + unfold search_news. destruct (truthy_str q); cbn [negb]; [apply Hfetch|].
      split; [exists []; rewrite app_nil_r; repeat split; cbn; lia | done].
    + split; [exists []; rewrite app_nil_r; repeat split; cbn; lia | done].
Qed.

(** ** Further properties of the token and of the configuration *)

Lemma contains_append (c : ascii) (s t : string) :
  contains c (s ++ String c t) = true.
Proof.
  induction s as [|a s IH].
  - change (contains c ("" ++ String c t))
      with (if Ascii.eqb c c then true else contains c t).
    by rewrite Ascii.eqb_refl.
  - change (contains c (String a s ++ String c t))
      with (if Ascii.eqb a c then true else contains c (s ++ String c t)).
    by destruct (Ascii.eqb a c).
Qed.

Lemma after_first_append (c : ascii) (s t : string) :
  contains c s = false → after_first c (s ++ String c t) = t.
Proof.
  induction s as [|a s IH].
  - intros _.
    change (after_first c ("" ++ String c t))
      with (if Ascii.eqb c c then t else after_first c t).
    by rewrite Ascii.eqb_refl.
  - change (contains c (String a s))
      with (if Ascii.eqb a c then true else contains c s).
    change (after_first c (String a s ++ String c t))
      with (if Ascii.eqb a c then s ++ String c t
            else after_first c (s ++ String c t)).
    destruct (Ascii.eqb a c); [done|]. exact IH.
Qed.

Lemma before_first_no_separator (c : ascii) (s : string) :
  contains c (before_first c s) = false.
Proof.
  induction s as [|a s IH]; [done|]. cbn [before_first].
  destruct (Ascii.eqb a c) eqn:Ha; [done|]. cbn [contains]. by rewrite Ha.
Qed.

(** X14. A header made of a scheme word, one space and a token, neither
    of which holds a space, gives back the token; and the token taken from
    any header that contains a space holds no space itself. *)
Theorem bearer_token_round_trip (scheme token header : string) (st : state) :
  (contains " " scheme = false →
   contains " " token = false →
   bearer_token (scheme ++ " " ++ token) st = (Return token, st))
  ∧ (contains " " header = true →
     ∀ t : string,
       bearer_token header st = (Return t, st) → contains " " t = false).
Proof.
  split.
  - intros Hscheme Htoken. rewrite bearer_token_value.
    change (" " ++ token) with (String " " token).
    rewrite contains_append, after_first_append by done.
    by rewrite before_first_absent.
  - intros Hin t. rewrite bearer_token_value, Hin. intros [= <-].
    apply before_first_no_separator.
Qed.

(** X15. The configured key list holds at most five keys; a key is in it
    exactly when it is non-empty and one of [GNEWS_API_KEY_1] to
    [GNEWS_API_KEY_5] is set to it; and it is empty exactly when none of
    the five variables is set to a non-empty value. *)
Theorem load_GNEWS_API_KEYS_members (getenv : string -> option string) :
  (List.length (load_GNEWS_API_KEYS getenv) ≤ 5)%nat
  ∧ (∀ k : string,
       k ∈ load_GNEWS_API_KEYS getenv
       ↔ truthy_str k = true
         ∧ ∃ v : string, v ∈ GNEWS_API_KEY_names ∧ getenv v = Some k)
  ∧ (load_GNEWS_API_KEYS getenv = []
     ↔ ∀ v : string, v ∈ GNEWS_API_KEY_names → truthy_opt (getenv v) = false).
Proof.
  split; [apply load_GNEWS_API_KEYS_shape|].
  assert (∀ k : string,
            k ∈ load_GNEWS_API_KEYS getenv
            ↔ truthy_str k = true
              ∧ ∃ v : string, v ∈ GNEWS_API_KEY_names ∧ getenv v = Some k) as Hmem.
  { intros k. unfold load_GNEWS_API_KEYS. rewrite list_elem_of_omap. split.
    - intros (v & Hv & Hk). destruct (getenv v) as [k'|] eqn:Hget; [|done].
      destruct (truthy_str k') eqn:Htruthy; [|done].
      injection Hk as <-. split; [done|]. by exists v.
    - intros (Htruthy & v & Hv & Hget). exists v. split; [done|].
      by rewrite Hget, Htruthy. }
  split; [exact Hmem|]. split.
  - intros Hnil v Hv. destruct (getenv v) as [k|] eqn:Hget; [|done].
    cbn. destruct (truthy_str k) eqn:Htruthy; [|done].
    assert (k ∈ load_GNEWS_API_KEYS getenv) as Hin
      by (apply Hmem; split; [done|]; by exists v).
    rewrite Hnil in Hin. by apply elem_of_nil in Hin.
  - intros Hnone.
    destruct (load_GNEWS_API_KEYS getenv) as [|k ks] eqn:Hload; [done|].
    assert (k ∈ k :: ks) as Hin by apply list_elem_of_here.
    apply Hmem in Hin as (Htruthy & v & Hv & Hget).
    specialize (Hnone v Hv). rewrite Hget in Hnone. cbn in Hnone. congruence.
Qed.

End Gateway.

Arguments initial_state {W} w.
Arguments State {W} _ _ _ _.
Arguments calls {W} _.
Arguments heap {W} _.
Arguments current_api_key_index {W} _.
Arguments get_gnews_api_key {W} GNEWS_API_KEYS _.
Arguments rotate {W} GNEWS_API_KEYS n st.
Arguments bearer_token {W} authorization _.
Arguments fetch_gnews {W J} requests_get GNEWS_API_KEYS endpoint params _.
Arguments get_news_by_category {W J} requests_get str_lower GNEWS_API_KEYS
  category_name page lang _.
Arguments search_news {W J} requests_get GNEWS_API_KEYS q page lang _.
Arguments call_search_news {W J} requests_get GNEWS_API_KEYS q page lang _.
Arguments signup {W J} auth_sign_up user_credentials _.
Arguments login {W J} auth_sign_in_with_password user_credentials _.
Arguments save_article {W J} auth_get_user table_insert article authorization _.
Arguments add_to_history {W J} auth_get_user table_insert article authorization _.

(** ** The handlers at work in the small world *)

Import Sample.

(** Three keys: a call at cursor 2 returns the third key and wraps to 0,
    and six calls from a fresh start go round the list twice. *)
Lemma rotator_round_robin_three_keys :
  get_gnews_api_key keys (State 2 [] tt [])
  = (Return "k3", State 0 [] tt [])
  ∧ rotate keys 6 (initial_state tt)
    = ([(0, Return "k1"); (1, Return "k2"); (2, Return "k3");
        (0, Return "k1"); (1, Return "k2"); (2, Return "k3")],
       initial_state tt).
Proof.
  split.
  - destruct (proj1 (rotator_round_robin unit keys ltac:(discriminate))
                (State 2 [] tt []) ltac:(cbn; lia))
      as [key [Hkey [Hcall _]]].
    injection Hkey as <-. exact Hcall.
  - exact (proj2 (proj2 (rotator_round_robin unit keys ltac:(discriminate)))
             (initial_state tt) eq_refl).
Defined.

(** No key configured: the first call fails and the cursor stays at 0. *)
Lemma rotator_empty_list_fails_fresh :
  get_gnews_api_key [] (initial_state tt)
  = (HTTPException 500 "GNews API keys not configured.", initial_state tt).
Proof.
  exact (proj1 (rotator_empty_list_fails unit [] (initial_state tt) eq_refl)).
Defined.

(** C3 as stated fails: with two spaces in the header the token is the
    middle field, not everything after the first space. *)
Lemma bearer_token_drops_later_fields :
  contains " " "Bearer abc def" = true
  ∧ after_first " " "Bearer abc def" = "abc def"
  ∧ (bearer_token "Bearer abc def" (initial_state tt)).1 = Return "abc"
  ∧ (bearer_token "Bearer abc def" (initial_state tt)).1
    ≠ Return (after_first " " "Bearer abc def").
Proof. repeat split; [vm_compute; reflexivity .. | discriminate]. Qed.

(** The handlers resolve the middle field too. *)
Lemma bearer_token_second_field_three_fields :
  calls (save_article get_user_ok insert_ok article (Some "Bearer abc def")
           (initial_state tt)).2 !! 0%nat
  = Some (Call_get_user "abc").
Proof.
  exact (proj1 (proj2 (proj2
           (proj2 (proj2 (proj2 (proj2 (proj2
              (bearer_token_second_field unit string get_user_ok select_none
                 insert_ok "Bearer abc def" (initial_state tt))))))
              eq_refl article)))).
Defined.

(** C4 as stated fails on the text of the message: the detail [login]
    raises ends with a full stop. *)
Lemma login_detail_ends_with_full_stop :
  (login sign_in_rejected credentials (initial_state tt)).1
  = HTTPException 401 "Invalid login credentials."
  ∧ (login sign_in_rejected credentials (initial_state tt)).1
    ≠ HTTPException 401 "Invalid login credentials".
Proof. split; [reflexivity | discriminate]. Qed.

Lemma auth_failure_details_rejected :
  (login sign_in_rejected credentials (initial_state tt)).1
  = HTTPException 401 "Invalid login credentials."
  ∧ (signup sign_up_taken credentials (initial_state tt)).1
    = HTTPException 400 "User already registered".
Proof.
  split.
  - exact (proj1 (auth_failure_details unit string sign_up_taken sign_in_rejected
                    credentials (initial_state tt)
                    (PyExn false "Email not confirmed") tt) eq_refl).
  - exact (proj2 (auth_failure_details unit string sign_up_taken sign_in_rejected
                    credentials (initial_state tt)
                    (PyExn false "User already registered") tt) eq_refl).
Defined.

(** A state with two parameter dictionaries on the heap. *)
Definition two_requests : state unit :=
  State 0 [ {["lang" := VStr "en"]}; {["q" := VStr "rocq"]} ] tt [].

(** C5 as stated fails: the error raised for [top-headlines] with one
    parameter set is the error raised for [search] with another, so neither
    the endpoint nor the parameters can be read off it. *)
Lemma fetch_gnews_error_omits_endpoint_and_params :
  (fetch_gnews requests_get_timeout keys "top-headlines" 0 two_requests).1
  = HTTPException 400 "Error fetching from GNews: Read timed out."
  ∧ (fetch_gnews requests_get_timeout keys "search" 1 two_requests).1
    = (fetch_gnews requests_get_timeout keys "top-headlines" 0 two_requests).1
  ∧ "search" ≠ "top-headlines"
  ∧ heap two_requests !! 1%nat ≠ heap two_requests !! 0%nat.
Proof.
  split; [reflexivity|]. split; [reflexivity|]. split; [discriminate|].
  intros Heq. apply (f_equal (fun o => o ≫= (.!! "q"))) in Heq.
  vm_compute in Heq. discriminate.
Qed.

Lemma fetch_gnews_failure_is_400_forbidden :
  (fetch_gnews requests_get_forbidden keys "search" 1 two_requests).1
  = HTTPException 400 "Error fetching from GNews: 403 Client Error: Forbidden".
Proof.
  refine (fetch_gnews_failure_is_400 unit string requests_get_forbidden keys
            "search" 1 two_requests 0 "k1" {["q" := VStr "rocq"]}
            "403 Client Error: Forbidden" eq_refl eq_refl eq_refl _).
  right. eexists. split; reflexivity.
Defined.

(** C6 as stated fails for a search that comes without [q]: the call is
    refused for its missing argument and the body, with its 400, is never
    reached. *)
Lemma search_without_query_is_not_400 :
  call_search_news requests_get_ok keys None (Some 1) (Some "en") (initial_state tt)
  = (Uncaught (PyExn false "search_news() missing 1 required positional argument: 'q'"),
     initial_state tt)
  ∧ ∀ detail : string,
      (call_search_news requests_get_ok keys None (Some 1) (Some "en")
         (initial_state tt)).1
      ≠ HTTPException 400 detail.
Proof. split; [reflexivity | intros detail; discriminate]. Qed.

(** An empty query stops the search before any key is taken; a query goes
    upstream on [search] with the fixed page size and ordering. *)
Lemma search_requires_query_empty :
  search_news requests_get_ok keys "" 1 "en" (initial_state tt)
  = (HTTPException 400 "Search query parameter 'q' is required.", initial_state tt)
  ∧ calls (search_news requests_get_ok keys "rocq" 2 "en" (initial_state tt)).2
    = [Call_requests_get "https://gnews.io/api/v4/search"
         (<["apikey" := VStr "k1"]>
          (<["q" := VStr "rocq"]>
           (<["lang" := VStr "en"]>
            (<["max" := VInt 9]>
             (<["page" := VInt 2]> (<["sortby" := VStr "publishedAt"]> ∅))))))].
Proof.
  split.
  - exact (proj2 (proj1 (search_requires_query unit string requests_get_ok keys
                           "" 1 "en" (initial_state tt)) eq_refl)).
  - exact (proj2 (proj2 (proj2 (proj2 (proj2 (proj2 (proj2
             (proj2 (search_requires_query unit string requests_get_ok keys
                       "rocq" 2 "en" (initial_state tt))
                eq_refl)))))))
             0%nat "k1" eq_refl eq_refl).
Defined.

(** ["Technology"] goes upstream as ["technology"]. *)
Lemma category_sent_lowercased_Technology :
  calls (get_news_by_category requests_get_ok ascii_lower keys "Technology" 1 "en"
           (initial_state tt)).2
  = [Call_requests_get "https://gnews.io/api/v4/top-headlines"
       (<["apikey" := VStr "k1"]>
        (<["topic" := VStr "technology"]>
         (<["lang" := VStr "en"]> (<["max" := VInt 9]> (<["page" := VInt 1]> ∅)))))].
Proof.
  exact (proj2 (proj2 (proj2 (proj2 (proj2 (proj2
           (category_sent_lowercased unit string requests_get_ok ascii_lower keys
              "Technology" 1 "en" (initial_state tt)))))))
           0%nat "k1" eq_refl eq_refl).
Defined.

(** The saved record carries the id the token resolved to. *)
Lemma save_article_attaches_user_id_sample :
  ∃ record : dict,
    calls (save_article get_user_ok insert_ok article (Some "Bearer abc123")
             (initial_state tt)).2
    = [Call_get_user "abc123"; Call_insert "savednews" record]
    ∧ record !! "user_id" = Some (VStr "user-1").
Proof.
  destruct (save_article_attaches_user_id unit string get_user_ok insert_ok
              article "Bearer abc123" "abc123" "user-1" (initial_state tt) tt
              eq_refl eq_refl eq_refl) as [record [Hcalls [Hid _]]].
  exists record. split; [exact Hcalls | exact Hid].
Defined.

(** The same refusal of the insert: 500 when saving, 401 for the history. *)
Lemma insert_failure_status_refused :
  (save_article get_user_ok insert_refused article (Some "abc123")
     (initial_state tt)).1
  = HTTPException 500 "Failed to save article: permission denied for table"
  ∧ (add_to_history get_user_ok insert_refused article (Some "abc123")
       (initial_state tt)).1
    = HTTPException 401 "Invalid token".
Proof.
  pose proof (insert_failure_status unit string get_user_ok insert_refused
                article "abc123" "abc123" "user-1" (initial_state tt) tt
                eq_refl eq_refl eq_refl) as [Hsave [Hhistory _]].
  split.
  - exact (Hsave (PyExn false "permission denied for table") tt eq_refl).
  - exact (Hhistory (PyExn false "permission denied for table") tt eq_refl).
Defined.

(** A request that times out has still moved the cursor and left the key
    in the caller's dictionary. *)
Lemma fetch_gnews_advances_and_marks_on_timeout :
  (fetch_gnews requests_get_timeout keys "search" 1 two_requests).1
  = HTTPException 400 "Error fetching from GNews: Read timed out."
  ∧ current_api_key_index
      (fetch_gnews requests_get_timeout keys "search" 1 two_requests).2 = 1
  ∧ heap (fetch_gnews requests_get_timeout keys "search" 1 two_requests).2 !! 1%nat
    = Some (<["apikey" := VStr "k1"]> {["q" := VStr "rocq"]}).
Proof.
  pose proof (fetch_gnews_advances_and_marks unit string requests_get_timeout keys
                "search" 1 two_requests 0 "k1" {["q" := VStr "rocq"]}
                eq_refl eq_refl eq_refl) as [Hcursor [Hdict _]].
  split; [reflexivity|]. split; [exact Hcursor | exact Hdict].
Defined.

(** ** More runs in the small world *)

Arguments get_top_headlines {W J} requests_get GNEWS_API_KEYS page lang _.
Arguments serve_all {W J} requests_get str_lower GNEWS_API_KEYS rs st.
Arguments get_saved_news {W J} auth_get_user table_select_eq authorization _.
Arguments get_user_history {W J} auth_get_user table_select_eq authorization _.
Arguments Reply_user_session {J} u s.
Arguments Reply_rows {J} rows.
Arguments Reply_message {J} message.

Module More.

Definition get_user_expired : string -> unit -> (pyexn + option string) * unit :=
  fun _ w => (inl (PyExn false "invalid JWT: token is expired"), w).

Definition sign_up_ok :
    SignUpData -> unit -> (pyexn + AuthResponse string) * unit :=
  fun data w => (inr {| user := su_email data; session := "session-1" |}, w).

Definition sign_in_ok :
    string -> string -> unit -> (pyexn + AuthResponse string) * unit :=
  fun email _ w => (inr {| user := email; session := "session-2" |}, w).

Definition morning : list news_request :=
  [Top_headlines 1 "en"; Search (Some "") 1 "en"; By_category "Sports" 1 "en";
   Search (Some "rocq") 1 "en"; Top_headlines 2 "en"].

End More.

Import More.

(** The second request of the process goes out with the second key. *)
Lemma top_headlines_request_second_key :
  calls (get_top_headlines requests_get_ok keys 2 "en" (State 1 [] tt [])).2
  = [Call_requests_get "https://gnews.io/api/v4/top-headlines"
       (<["apikey" := VStr "k2"]>
        (<["lang" := VStr "en"]> (<["max" := VInt 9]> (<["page" := VInt 2]> ∅))))]
  ∧ current_api_key_index
      (get_top_headlines requests_get_ok keys 2 "en" (State 1 [] tt [])).2 = 2.
Proof.
  exact (proj2 (proj2 (proj2 (proj2
           (top_headlines_request unit string requests_get_ok keys 2 "en"
              (State 1 [] tt []))))) 1%nat "k2" eq_refl eq_refl).
Defined.

Lemma fetch_gnews_outcomes_ok :
  (fetch_gnews requests_get_ok keys "search" 1 two_requests).1 = Return "{}".
Proof.
  exact (proj1 (fetch_gnews_outcomes unit string requests_get_ok keys "search" 1
                  two_requests 0 "k1" {["q" := VStr "rocq"]}
                  eq_refl eq_refl eq_refl)
           {| raise_for_status := None; json := inr "{}" |} "{}"
           eq_refl eq_refl eq_refl).
Defined.

Lemma no_keys_no_request_sample :
  fetch_gnews requests_get_ok [] "search" 1 two_requests
  = (HTTPException 500 "GNews API keys not configured.", two_requests).
Proof.
  exact (proj1 (no_keys_no_request unit string requests_get_ok ascii_lower []
                  "search" 1 1 "en" "sports" "" two_requests eq_refl)).
Defined.

(** Five requests, one of them refused for its empty query, upstream timing
    out every time: four keys were used and the cursor stands at 4 mod 3. *)
Lemma keys_follow_request_count_morning :
  current_api_key_index
    (serve_all requests_get_timeout ascii_lower keys morning (initial_state tt))
  = 1.
Proof.
  exact (proj1 (keys_follow_request_count unit string requests_get_timeout
                  ascii_lower keys morning tt ltac:(discriminate))).
Defined.

Lemma missing_header_is_unauthorized_sample :
  save_article get_user_ok insert_ok article None (initial_state tt)
  = (HTTPException 401 "Unauthorized", initial_state tt).
Proof.
  exact (proj1 (proj2 (proj2
           (missing_header_is_unauthorized unit string get_user_ok select_none
              insert_ok article None (initial_state tt) eq_refl)))).
Defined.

Lemma unresolved_token_stops_handlers_expired :
  save_article get_user_expired insert_ok article (Some "Bearer abc123")
    (initial_state tt)
  = (HTTPException 401 "Invalid token", State 0 [] tt [Call_get_user "abc123"]).
Proof.
  exact (proj1 (proj2 (proj2
           (unresolved_token_stops_handlers unit string get_user_expired
              select_none insert_ok article "Bearer abc123" "abc123"
              (initial_state tt)
              (inl (PyExn false "invalid JWT: token is expired")) tt
              eq_refl eq_refl eq_refl
              (or_intror (ex_intro _ (PyExn false "invalid JWT: token is expired")
                            eq_refl)))))).
Defined.

Lemma reads_are_filtered_by_user_sample :
  get_saved_news get_user_ok select_none (Some "Bearer abc123") (initial_state tt)
  = (Return (Reply_rows []),
     State 0 [] tt
       [Call_get_user "abc123"; Call_select_eq "savednews" "user_id" "user-1"]).
Proof.
  exact (proj1 (reads_are_filtered_by_user unit string get_user_ok select_none
                  "Bearer abc123" "abc123" "user-1" (initial_state tt) tt
                  eq_refl eq_refl eq_refl)).
Defined.

Lemma add_to_history_attaches_user_id_sample :
  ∃ record : dict,
    calls (add_to_history get_user_ok insert_ok article (Some "Bearer abc123")
             (initial_state tt)).2
    = [Call_get_user "abc123"; Call_insert "history" record]
    ∧ record !! "user_id" = Some (VStr "user-1").
Proof.
  destruct (add_to_history_attaches_user_id unit string get_user_ok insert_ok
              article "Bearer abc123" "abc123" "user-1" (initial_state tt) tt
              eq_refl eq_refl eq_refl) as [record [Hcalls [Hid _]]].
  exists record. split; [exact Hcalls | exact Hid].
Defined.

Lemma signup_forwards_sample :
  (signup sign_up_ok credentials (initial_state tt)).1
  = Return (Reply_user_session "ada@example.org" "session-1").
Proof.
  exact (proj1 (proj2 (proj2 (proj2
           (signup_forwards unit string sign_up_ok credentials (initial_state tt)))))
           {| user := "ada@example.org"; session := "session-1" |} tt eq_refl).
Defined.

Lemma login_forwards_sample :
  (login sign_in_ok credentials (initial_state tt)).1
  = Return (Reply_user_session "ada@example.org" "session-2").
Proof.
  exact (proj1 (proj2 (proj2
           (login_forwards unit string sign_in_ok credentials (initial_state tt))))
           {| user := "ada@example.org"; session := "session-2" |} tt eq_refl).
Defined.

Lemma bearer_token_round_trip_Bearer :
  bearer_token "Bearer abc123" (initial_state tt)
  = (Return "abc123", initial_state tt).
Proof.
  exact (proj1 (bearer_token_round_trip unit "Bearer" "abc123" "" (initial_state tt))
           eq_refl eq_refl).
Defined.
